(** * The PEP 517 packaging environment of tox
      ([src/tox/tox_env/python/virtual_env/package/pep517.py])

    A shallow embedding of the build-backend client and of the packaging
    coordinator, with the properties of its completion detector, failure
    translation, result cache, dependency cache, packaging and teardown. *)

From Stdlib Require Import Strings.Byte.
From stdpp Require Import gmap strings list fin_maps.

Set Default Proof Using "Type".

(** ** Byte strings

    Python [bytes] are lists of bytes; the operations below are the ones
    [ToxCmdStatus.done] uses: [bytes.rfind], [bytes.rpartition] and the
    containment test [sub in s]. *)

Module Bytes.

Abbreviation bytes := (list byte).

Definition b (s : string) : bytes := String.list_byte_of_string s.

(** [s.startswith(sep)] *)
Fixpoint startswith (sep s : bytes) : bool :=
  match sep, s with
  | [], _ => true
  | _ :: _, [] => false
  | x :: sep', y :: s' => Byte.eqb x y && startswith sep' s'
  end.

(** [s.rfind(sep)]: the highest index at which [sep] occurs in [s]. *)
Fixpoint rfind (sep s : bytes) : option nat :=
  match s with
  | [] => if startswith sep [] then Some 0 else None
  | _ :: s' =>
      match rfind sep s' with
      | Some i => Some (S i)
      | None => if startswith sep s then Some 0 else None
      end
  end.

(** [s.rpartition(sep)]: split at the last occurrence of [sep]; when [sep]
    does not occur the result is [(b"", b"", s)].  An empty separator raises
    [ValueError], which is [None] here. *)
Definition rpartition (sep s : bytes) : option (bytes * bytes * bytes) :=
  match sep with
  | [] => None
  | _ :: _ =>
      Some match rfind sep s with
           | Some i => (take i s, sep, drop (i + length sep) s)
           | None => ([], [], s)
           end
  end.

(** [sub in s] *)
Fixpoint contains (sub s : bytes) : bool :=
  startswith sub s ||
  match s with
  | [] => false
  | _ :: s' => contains sub s'
  end.

End Bytes.

(** ** The completion detector: [ToxCmdStatus] *)

Module Completion.
Import Bytes.

(** What [ToxCmdStatus.done] reads of the [ExecuteStatus] it wraps: the exit
    code of the backend process ([None] while it runs) and the raw output
    collected so far. *)
Record ExecuteStatus := {
  exit_code : option Z;
  out : bytes;
}.

Definition newline : bytes := [x0a].

Definition sentinel : bytes := Eval cbv in b "Backend: Wrote response ".

(** [ToxCmdStatus.done]:
    [if status.exit_code is not None: return True]
    [return b"\n" in status.out.rpartition(b"Backend: Wrote response ")[0]] *)
Definition done (status : ExecuteStatus) : option bool :=
  match exit_code status with
  | Some _ => Some true
  | None =>
      '(head, _, _) ← rpartition sentinel (out status);
      Some (contains newline head)
  end.

(** The sentence of the specification: the output holds the sentinel, a path
    and then a newline. *)
Definition sentinel_line (s : bytes) : Prop :=
  ∃ pre path post, s = pre ++ sentinel ++ path ++ newline ++ post.

(** The same as a test: at some position the sentinel starts and a newline
    occurs after it. *)
Fixpoint sentinel_lineb (s : bytes) : bool :=
  (startswith sentinel s && contains newline (drop (length sentinel) s)) ||
  match s with
  | [] => false
  | _ :: s' => sentinel_lineb s'
  end.

End Completion.

(** ** Values, failures and artifacts *)

Module Py.

(** Python values that cross the protocol: command results and keyword
    arguments (paths, strings, the config-settings mapping). *)
#[local] Unset Elimination Schemes.
Inductive pyval :=
  | VNone
  | VBool (v : bool)
  | VInt (z : Z)
  | VStr (s : string)
  | VPath (p : string)
  | VList (l : list pyval)
  | VDict (d : list (string * pyval)).
#[local] Set Elimination Schemes.

(** [**kwargs] *)
Abbreviation kwargs := (gmap string pyval).

(** [str(path / child)] of [pathlib] for a POSIX path given by its text [p]
    (as [str(path)] prints it) and a plain name [child]: the name is put
    after the separator, which a root ([/] and [//]) already ends with and
    which the current directory ([.], also for the empty text) does not
    show. *)
Definition ends_with_slash (p : string) : bool :=
  match String.rev p with
  | String c _ => Ascii.eqb c (Ascii.ascii_of_nat 47)
  | EmptyString => false
  end.

Definition path_div (p child : string) : string :=
  if decide (p = "." ∨ p = "") then child
  else if ends_with_slash p then p +:+ child
  else p +:+ "/" +:+ child.

(** The attributes of a [BackendFailed]. *)
Record failure := {
  code : pyval;
  exc_type : pyval;
  exc_msg : pyval;
  out : string;
  err : string;
}.

(** Exceptions, by class.  [ToxBackendFailed] is the subclass of [Fail] and
    [BackendFailed] declared in this file; [BackendFailed] stands for an
    instance of the base class that is not a [ToxBackendFailed]. *)
Inductive exn :=
  | BackendFailed (f : failure)
  | ToxBackendFailed (f : failure)
  | SystemExit (status : pyval)
  | KeyboardInterrupt
  | TypeError (msg : string)
  | AttributeError (msg : string)
  | OtherError (class msg : string).

(** [isinstance(e, BackendFailed)] *)
Definition is_BackendFailed (e : exn) : bool :=
  match e with
  | BackendFailed _ | ToxBackendFailed _ => true
  | _ => false
  end.

(** [isinstance(e, ToxBackendFailed)] *)
Definition is_ToxBackendFailed (e : exn) : bool :=
  match e with
  | ToxBackendFailed _ => true
  | _ => false
  end.

(** [isinstance(e, SystemExit)] *)
Definition is_SystemExit (e : exn) : bool :=
  match e with
  | SystemExit _ => true
  | _ => false
  end.

(** Modelled from the spec: [BackendFailed.__init__(self, result, out, err)]
    of [pyproject_api] is outside this file.  The failure carries the code,
    the exception type and the exception message of the result mapping, read
    with [dict.get] and the defaults of the library, and the two captured
    output texts. *)
Definition BackendFailed___init__ (result : kwargs) (out err : string) : failure :=
  {| code := default (VInt (-2)) (result !! "code");
     exc_type := default (VStr "missing Exception type") (result !! "exc_type");
     exc_msg := default (VStr "missing Exception message") (result !! "exc_msg");
     out := out;
     err := err |}.

(** [ToxBackendFailed.__init__(self, backend_failed)] *)
Definition ToxBackendFailed___init__ (backend_failed : failure) : failure :=
  let result : kwargs :=
    <["code" := code backend_failed]>
      (<["exc_type" := exc_type backend_failed]>
         (<["exc_msg" := exc_msg backend_failed]> ∅)) in
  BackendFailed___init__ result (out backend_failed) (err backend_failed).

(** A parsed requirement ([packaging.requirements.Requirement]), kept as the
    text of the requirement. *)
Record Requirement := { req : string }.

(** The package artifacts of [tox.tox_env.python.package]. *)
Inductive Package :=
  | WheelPackage (path : string) (deps : list Requirement)
  | SdistPackage (path : string) (deps : list Requirement)
  | DevLegacyPackage (path : string) (deps : list Requirement).

(** What [build_wheel] and [build_sdist] of the base client return. *)
Inductive build_result :=
  | WheelResult (wheel : string) (out err : string)
  | SdistResult (sdist : string) (out err : string).

Record MetadataForBuildWheelResult := {
  metadata : string;
  metadata_out : string;
  metadata_err : string;
}.

Record RequiresBuildSdistResult := {
  requires : list Requirement;
  requires_out : string;
  requires_err : string;
}.

(** [importlib.metadata.PathDistribution]: the directory it reads. *)
Record PathDistribution := { dist_path : string }.

(** [LocalSubProcessPep517Executor(colored, cmd, env, cwd)] *)
Record Executor := {
  colored : bool;
  cmd : list string;
  env : gmap string string;
  cwd : string;
}.

(** The [EnvConfigSet] of the run environment a package is built for. *)
Record EnvConfigSet := {
  package : string;
  wheel_build_env : string;
  extras : gset string;
}.

End Py.

(** ** State, failures and trace of a packaging session *)

Module Pep517.
Import Py.

(** The settings of one packaging environment that do not change during a
    session: [self.conf] and [self.core] entries, [self.env_dir],
    [os.pathsep]; [self_ref] identifies the environment itself among the
    package environments. *)
Record Config := {
  self_ref : nat;
  package_root : string;
  tox_root : string;
  pkg_dir : string;
  meta_dir : string;
  env_dir : string;
  is_colored : bool;
  pathsep : string;
}.

(** What [Frontend.create_args_from_folder] reads from the project: of the
    arguments of the base client only those this file touches. *)
Record FrontendArgs := {
  backend_paths : list string;
  backend_args : list string;
  static_requires : list Requirement;
}.

(** Calls that leave this file, in the order they are made. *)
Inductive event :=
  | EvSend (cmd : string) (kw : kwargs)
  | EvUnexpectedResponse (cmd : string)
  | EvCommand (name : string) (args : list pyval) (kw : kwargs)
  | EvFrontendInit (root : string)
  | EvSetup
  | EvTeardown
  | EvEnvironmentVariables
  | EvMkdir (p : string)
  | EvReadRequires (d : PathDistribution)
  | EvClose (e : Executor)
  | EvAcquire
  | EvRelease
  | EvRegisterRunEnv
  | EvEnvDependencies (w_env : nat)
  | EvEnvPackaging (w_env : nat) (for_env : EnvConfigSet).

Inductive result (A : Type) :=
  | Ok (a : A)
  | Raise (e : exn).
Arguments Ok {A} a.
Arguments Raise {A} e.

Section Session.
Context {Ext : Type}.

(** The fields of the [Pep517VirtualEnvPackager] and of the one
    [Pep517VirtualEnvFrontend] it creates, and the state [ext] of everything
    else (backend process, file system, other environments).
    [frontend_private] tells whether [_frontend_private] holds the frontend;
    the fields from [frontend_args] to [into] are those of that frontend and
    are set when it is created. *)
Record World := {
  builds : gset string;
  distribution_meta : option PathDistribution;
  package_dependencies : option (list Requirement);
  pkg_lock : nat;
  wheel_build_envs : gmap string nat;
  frontend_private : bool;
  frontend_args : FrontendArgs;
  backend_executor_ : option Executor;
  into : gmap string build_result;
  ext : Ext;
}.

Definition set_builds (f : gset string → gset string) (w : World) : World :=
  {| builds := f (builds w); distribution_meta := distribution_meta w;
     package_dependencies := package_dependencies w; pkg_lock := pkg_lock w;
     wheel_build_envs := wheel_build_envs w;
     frontend_private := frontend_private w; frontend_args := frontend_args w;
     backend_executor_ := backend_executor_ w; into := into w; ext := ext w |}.

Definition set_distribution_meta (v : option PathDistribution) (w : World) : World :=
  {| builds := builds w; distribution_meta := v;
     package_dependencies := package_dependencies w; pkg_lock := pkg_lock w;
     wheel_build_envs := wheel_build_envs w;
     frontend_private := frontend_private w; frontend_args := frontend_args w;
     backend_executor_ := backend_executor_ w; into := into w; ext := ext w |}.

Definition set_package_dependencies (v : option (list Requirement)) (w : World) : World :=
  {| builds := builds w; distribution_meta := distribution_meta w;
     package_dependencies := v; pkg_lock := pkg_lock w;
     wheel_build_envs := wheel_build_envs w;
     frontend_private := frontend_private w; frontend_args := frontend_args w;
     backend_executor_ := backend_executor_ w; into := into w; ext := ext w |}.

Definition set_pkg_lock (f : nat → nat) (w : World) : World :=
  {| builds := builds w; distribution_meta := distribution_meta w;
     package_dependencies := package_dependencies w; pkg_lock := f (pkg_lock w);
     wheel_build_envs := wheel_build_envs w;
     frontend_private := frontend_private w; frontend_args := frontend_args w;
     backend_executor_ := backend_executor_ w; into := into w; ext := ext w |}.

Definition set_backend_executor_ (v : option Executor) (w : World) : World :=
  {| builds := builds w; distribution_meta := distribution_meta w;
     package_dependencies := package_dependencies w; pkg_lock := pkg_lock w;
     wheel_build_envs := wheel_build_envs w;
     frontend_private := frontend_private w; frontend_args := frontend_args w;
     backend_executor_ := v; into := into w; ext := ext w |}.

Definition set_into (f : gmap string build_result → gmap string build_result)
    (w : World) : World :=
  {| builds := builds w; distribution_meta := distribution_meta w;
     package_dependencies := package_dependencies w; pkg_lock := pkg_lock w;
     wheel_build_envs := wheel_build_envs w;
     frontend_private := frontend_private w; frontend_args := frontend_args w;
     backend_executor_ := backend_executor_ w; into := f (into w); ext := ext w |}.

Definition set_ext (v : Ext) (w : World) : World :=
  {| builds := builds w; distribution_meta := distribution_meta w;
     package_dependencies := package_dependencies w; pkg_lock := pkg_lock w;
     wheel_build_envs := wheel_build_envs w;
     frontend_private := frontend_private w; frontend_args := frontend_args w;
     backend_executor_ := backend_executor_ w; into := into w; ext := v |}.

(** [self._frontend_private = Pep517VirtualEnvFrontend(...)]: a fresh
    frontend has no executor and an empty cache. *)
Definition new_frontend (args : FrontendArgs) (w : World) : World :=
  {| builds := builds w; distribution_meta := distribution_meta w;
     package_dependencies := package_dependencies w; pkg_lock := pkg_lock w;
     wheel_build_envs := wheel_build_envs w;
     frontend_private := true; frontend_args := args;
     backend_executor_ := None; into := ∅; ext := ext w |}.

(** A computation runs on the session state; it returns or raises, leaves a
    state, and lists the outside calls it made. *)
Definition M (A : Type) : Type := World → result A * World * list event.

(** A call that leaves this file: it may do anything to the state. *)
Definition extern (A : Type) : Type := World → result A * World.

Definition ret {A} (a : A) : M A := λ w, (Ok a, w, []).

Definition raise {A} (e : exn) : M A := λ w, (Raise e, w, []).

Definition bind {A B} (m : M A) (k : A → M B) : M B := λ w,
  match m w with
  | (Ok a, w', l) => let '(r, w'', l') := k a w' in (r, w'', l ++ l')
  | (Raise e, w', l) => (Raise e, w', l)
  end.

Definition get : M World := λ w, (Ok w, w, []).

Definition modify (f : World → World) : M unit := λ w, (Ok (), f w, []).

(** A call on another object, which has its own state in [ext] and does not
    reach the fields of this environment. *)
Definition on_ext {A} (f : Ext → result A * Ext) : extern A := λ w,
  let '(r, x) := f (ext w) in (r, set_ext x w).

(** An outside call, recorded in the trace. *)
Definition call {A} (ev : event) (f : extern A) : M A := λ w,
  let '(r, w') := f w in (r, w', [ev]).

(** [try: m / except <classes>: h]: the handler runs for the exceptions of
    the classes [caught], the others go through. *)
Definition try_except {A} (m : M A) (caught : exn → bool) (h : exn → M A) : M A :=
  λ w,
  match m w with
  | (Ok a, w', l) => (Ok a, w', l)
  | (Raise e, w', l) =>
      if caught e then let '(r, w'', l') := h e w' in (r, w'', l ++ l')
      else (Raise e, w', l)
  end.

(** [try: m / finally: fin]: [fin] runs in every case; what [m] returned or
    raised stands unless [fin] itself raises. *)
Definition try_finally {A} (m : M A) (fin : M unit) : M A := λ w,
  let '(r, w', l) := m w in
  match fin w' with
  | (Ok _, w'', l') => (r, w'', l ++ l')
  | (Raise e, w'', l') => (Raise e, w'', l ++ l')
  end.

End Session.

Arguments World : clear implicits.
Arguments M : clear implicits.
Arguments extern : clear implicits.

#[global] Instance M_ret {Ext} : MRet (M Ext) := @ret Ext.
#[global] Instance M_bind {Ext} : MBind (M Ext) := λ A B k m, bind m k.


(** ** What the packaging environment calls outside this file

    The base client [pyproject_api.Frontend], the base classes of the
    packaging environment, the executor of the backend process, the metadata
    reader and the other package environments.  Nothing is assumed of them:
    each is a function of the whole session state, except that the other
    package environments are objects of their own, with their state in
    [ext]. *)
Record Collaborators {Ext : Type} := {
  Frontend_create_args_from_folder : string → extern Ext FrontendArgs;
  Frontend__send : string → kwargs → extern Ext (pyval * string * string);
  Frontend__unexpected_response :
    string → pyval → pyval → string → string → extern Ext unit;
  Frontend_build_wheel : list pyval → kwargs → extern Ext build_result;
  Frontend_build_sdist : list pyval → kwargs → extern Ext build_result;
  Frontend_prepare_metadata_for_build_wheel :
    list pyval → kwargs → extern Ext MetadataForBuildWheelResult;
  Frontend_get_requires_for_build_sdist :
    list pyval → kwargs → extern Ext RequiresBuildSdistResult;
  ToxEnv_setup : extern Ext unit;
  ToxEnv__teardown : extern Ext unit;
  ToxEnv_environment_variables : extern Ext (gmap string string);
  PythonPackageToxEnv_register_run_env : string → extern Ext unit;
  Path_mkdir : string → extern Ext unit;
  PathDistribution_requires : PathDistribution → extern Ext (option (list string));
  Requirement___init__ : string → result Requirement;
  dependencies_with_extras : list Requirement → gset string → list Requirement;
  Executor_is_alive : Executor → World Ext → bool;
  Executor_close : Executor → extern Ext unit;
  is_Pep517VirtualEnvPackager : nat → bool;
  env_get_package_dependencies : nat → Ext → result (list Requirement) * Ext;
  env_perform_packaging : nat → EnvConfigSet → Ext → result (list Package) * Ext;
}.
Arguments Collaborators : clear implicits.

(** [str.strip()] and [sep.join(l)].  A string holds the UTF-8 encoding of
    the text.  The white space of Python ([str.isspace]) is U+0009 to U+000D,
    U+001C to U+0020, U+0085, U+00A0, U+1680, U+2000 to U+200A, U+2028,
    U+2029, U+202F, U+205F and U+3000: one, two or three bytes each. *)
Definition is_space (c : Ascii.ascii) : bool :=
  let n := Ascii.nat_of_ascii c in
  (9 <=? n) && (n <=? 13) || (28 <=? n) && (n <=? 32).

(** U+0085 and U+00A0 are [C2 85] and [C2 A0]. *)
Definition is_space2 (c1 c2 : Ascii.ascii) : bool :=
  let n1 := Ascii.nat_of_ascii c1 in
  let n2 := Ascii.nat_of_ascii c2 in
  (n1 =? 194) && ((n2 =? 133) || (n2 =? 160)).

(** U+1680 is [E1 9A 80]; U+2000 to U+200A, U+2028, U+2029 and U+202F are
    [E2 80 80] to [E2 80 8A], [E2 80 A8], [E2 80 A9] and [E2 80 AF]; U+205F is
    [E2 81 9F]; U+3000 is [E3 80 80]. *)
Definition is_space3 (c1 c2 c3 : Ascii.ascii) : bool :=
  let n1 := Ascii.nat_of_ascii c1 in
  let n2 := Ascii.nat_of_ascii c2 in
  let n3 := Ascii.nat_of_ascii c3 in
  (n1 =? 225) && (n2 =? 154) && (n3 =? 128)
  || (n1 =? 226) && (n2 =? 128)
     && ((128 <=? n3) && (n3 <=? 138) || (n3 =? 168) || (n3 =? 169)
         || (n3 =? 175))
  || (n1 =? 226) && (n2 =? 129) && (n3 =? 159)
  || (n1 =? 227) && (n2 =? 128) && (n3 =? 128).

(** The string without the white space at its front, for given tests of the
    two and three byte white space. *)
Fixpoint strip_front (two : Ascii.ascii → Ascii.ascii → bool)
    (three : Ascii.ascii → Ascii.ascii → Ascii.ascii → bool)
    (s : string) : string :=
  match s with
  | String c1 s1 =>
      if is_space c1 then strip_front two three s1
      else
        match s1 with
        | String c2 s2 =>
            if two c1 c2 then strip_front two three s2
            else
              match s2 with
              | String c3 s3 =>
                  if three c1 c2 c3 then strip_front two three s3 else s
              | EmptyString => s
              end
        | EmptyString => s
        end
  | EmptyString => EmptyString
  end.

Definition lstrip (s : string) : string := strip_front is_space2 is_space3 s.

(** At the end of the string the bytes of a character come in reverse. *)
Definition rstrip (s : string) : string :=
  String.rev
    (strip_front (λ c2 c1, is_space2 c1 c2) (λ c3 c2 c1, is_space3 c1 c2 c3)
       (String.rev s)).

Definition strip (s : string) : string := rstrip (lstrip s).

Fixpoint join (sep : string) (l : list string) : string :=
  match l with
  | [] => ""
  | [x] => x
  | x :: l' => x +:+ sep +:+ join sep l'
  end.

(** ** The protocol client: [Pep517VirtualEnvFrontend] *)

Section Client.
Context {Ext : Type} (cfg : Config) (X : Collaborators Ext).

(** [Pep517VirtualEnvPackager._frontend]: the frontend is created on first
    use, from the package root. *)
Definition _frontend : M Ext unit :=
  w ← get;
  if frontend_private w then mret ()
  else
    args ← call (EvFrontendInit (package_root cfg))
              (Frontend_create_args_from_folder X (package_root cfg));
    modify (new_frontend args).

(** [backend_cmd] *)
Definition backend_cmd (w : World Ext) : list string :=
  "python" :: backend_args (frontend_args w).

(** [backend_executor]: created on first use, with [PYTHONPATH] set to the
    backend paths when there are any. *)
Definition backend_executor : M Ext Executor :=
  w ← get;
  match backend_executor_ w with
  | Some executor => mret executor
  | None =>
      environment_variables ←
        call EvEnvironmentVariables (ToxEnv_environment_variables X);
      w ← get;
      let backend := strip (join (pathsep cfg) (backend_paths (frontend_args w))) in
      let environment_variables :=
        if decide (backend = "") then environment_variables
        else <["PYTHONPATH" := backend]> environment_variables in
      let executor :=
        {| colored := is_colored cfg; cmd := backend_cmd w;
           env := environment_variables; cwd := package_root cfg |} in
      modify (set_backend_executor_ (Some executor));;
      mret executor
  end.

(** The result mapping of the failure raised instead of a metadata round
    trip. *)
Definition avoid_redundant : kwargs :=
  <["code" := VInt 1]>
    (<["exc_type" := VStr "AvoidRedundant"]>
       (<["exc_msg" := VStr "will need to build wheel either way, avoid prepare"]> ∅)).

(** [raise exception if isinstance(exception, ToxBackendFailed)
     else ToxBackendFailed(exception)], for an [exception] caught by
    [except BackendFailed]. *)
Definition rewrap {A} (exception : exn) : M Ext A :=
  match exception with
  | BackendFailed f => raise (ToxBackendFailed (ToxBackendFailed___init__ f))
  | _ => raise exception
  end.

(** [_send(self, cmd, **kwargs)] *)
Definition _send (cmd : string) (kw : kwargs) : M Ext (pyval * string * string) :=
  try_except
    (w ← get;
     (if decide (cmd = "prepare_metadata_for_build_wheel") then
        if decide ("wheel" ∈ builds w) then
          raise (BackendFailed (BackendFailed___init__ avoid_redundant "" ""))
        else mret ()
      else mret ());;
     call (EvSend cmd kw) (Frontend__send X cmd kw))
    is_BackendFailed rewrap.

(** [_unexpected_response(self, cmd, got, expected_type, out, err)] *)
Definition _unexpected_response (cmd : string) (got expected_type : pyval)
    (out err : string) : M Ext unit :=
  try_except
    (call (EvUnexpectedResponse cmd)
       (Frontend__unexpected_response X cmd got expected_type out err))
    is_BackendFailed rewrap.

(** The key of the result cache:
    [lambda *args, **kwargs: "wheel" if "wheel_directory" in kwargs else "sdist"] *)
Definition pkg_cache_key (args : list pyval) (kw : kwargs) : string :=
  match kw !! "wheel_directory" with
  | Some _ => "wheel"
  | None => "sdist"
  end.

(** Modelled from the spec: the decorator [cached(cache, key)] of
    [cachetools] is outside this file.  The value stored under the key of
    the call is returned without calling the method; otherwise the method is
    called and what it returns is stored, nothing being stored when it
    raises.  The cache is the mapping [into] of the frontend. *)
Definition cached (key : list pyval → kwargs → string)
    (func : list pyval → kwargs → M Ext build_result)
    (args : list pyval) (kw : kwargs) : M Ext build_result :=
  let k := key args kw in
  w ← get;
  match into w !! k with
  | Some v => mret v
  | None =>
      v ← func args kw;
      modify (set_into (insert k v));;
      mret v
  end.

(** [pkg_cache = cached(into, key=lambda *args, **kwargs: ...)] *)
Definition pkg_cache :
    (list pyval → kwargs → M Ext build_result) →
    list pyval → kwargs → M Ext build_result :=
  cached pkg_cache_key.

(** [self.build_wheel = pkg_cache(self.build_wheel)] and
    [self.build_sdist = pkg_cache(self.build_sdist)] *)
Definition build_wheel : list pyval → kwargs → M Ext build_result :=
  pkg_cache (λ args kw,
    call (EvCommand "build_wheel" args kw) (Frontend_build_wheel X args kw)).

Definition build_sdist : list pyval → kwargs → M Ext build_result :=
  pkg_cache (λ args kw,
    call (EvCommand "build_sdist" args kw) (Frontend_build_sdist X args kw)).

(** The attributes [.wheel] and [.sdist] of a build result. *)
Definition wheel_of (r : build_result) : M Ext string :=
  match r with
  | WheelResult wheel _ _ => mret wheel
  | SdistResult _ _ _ => raise (AttributeError "wheel")
  end.

Definition sdist_of (r : build_result) : M Ext string :=
  match r with
  | SdistResult sdist _ _ => mret sdist
  | WheelResult _ _ _ => raise (AttributeError "sdist")
  end.

End Client.

(** ** The packaging environment: [Pep517VirtualEnvPackager] *)

Section Packager.
Context {Ext : Type} (cfg : Config) (X : Collaborators Ext).

(** [__init__]: nothing is built, known or created yet. *)
Definition Pep517VirtualEnvPackager___init__ (x : Ext) : World Ext :=
  {| builds := ∅; distribution_meta := None; package_dependencies := None;
     pkg_lock := 0; wheel_build_envs := ∅; frontend_private := false;
     frontend_args :=
       {| backend_paths := []; backend_args := []; static_requires := [] |};
     backend_executor_ := None; into := ∅; ext := x |}.

(** [with self._pkg_lock: m].  The lock is reentrant and a session runs in
    one thread: taking it counts up, leaving the block counts down. *)
Definition with_lock {A} (m : M Ext A) : M Ext A :=
  (λ w, (Ok (), set_pkg_lock S w, [EvAcquire])) ;;
  try_finally m (λ w, (Ok (), set_pkg_lock pred w, [EvRelease])).

(** [register_run_env]: after the base classes, the package kind of the run
    environment is added to [builds]. *)
Definition register_run_env (package : string) : M Ext unit :=
  call EvRegisterRunEnv (PythonPackageToxEnv_register_run_env X package);;
  modify (set_builds (λ s, s ∪ {[package]})).

(** [meta_folder]: the folder is created when missing. *)
Definition meta_folder : M Ext string :=
  call (EvMkdir (meta_dir cfg)) (Path_mkdir X (meta_dir cfg));;
  mret (meta_dir cfg).

(** [_wheel_config_settings] *)
Definition _wheel_config_settings : pyval :=
  VDict [("--global-option",
          VList [VStr "--bdist-dir"; VStr (path_div (env_dir cfg) "build")])].

(** [requires]: the requirements the frontend read from the project. *)
Definition requires_ : M Ext (list Requirement) :=
  _frontend cfg X;;
  w ← get;
  mret (static_requires (frontend_args w)).

(** [_ensure_meta_present] *)
Definition _ensure_meta_present : M Ext unit :=
  w ← get;
  match distribution_meta w with
  | Some _ => mret ()
  | None =>
      call EvSetup (ToxEnv_setup X);;
      _frontend cfg X;;
      metadata_directory ← meta_folder;
      let args := [VPath metadata_directory; _wheel_config_settings] in
      r ← call (EvCommand "prepare_metadata_for_build_wheel" args ∅)
            (Frontend_prepare_metadata_for_build_wheel X args ∅);
      modify (set_distribution_meta (Some {| dist_path := metadata r |}))
  end.

(** [[Requirement(i) for i in requires]] *)
Fixpoint parse_requirements (l : list string) : M Ext (list Requirement) :=
  match l with
  | [] => mret []
  | i :: l' =>
      r ← (match Requirement___init__ X i with
           | Ok r => mret r
           | Raise e => raise e
           end);
      rs ← parse_requirements l';
      mret (r :: rs)
  end.

(** [get_package_dependencies] *)
Definition get_package_dependencies : M Ext (option (list Requirement)) :=
  with_lock
    (w ← get;
     match package_dependencies w with
     | Some _ => mret ()
     | None =>
         _ensure_meta_present;;
         w ← get;
         requires ←
           (match distribution_meta w with
            | Some d =>
                r ← call (EvReadRequires d) (PathDistribution_requires X d);
                mret (default [] r)
            | None => raise (AttributeError "requires")
            end);
         deps ← parse_requirements requires;
         modify (set_package_dependencies (Some deps))
     end);;
  w ← get;
  mret (package_dependencies w).

(** The wheel build environment registered for [for_env], when there is one
    and it is not this environment:
    [w_env is not None and w_env is not self]. *)
Definition other_wheel_env (for_env : EnvConfigSet) (w : World Ext) : option nat :=
  match wheel_build_envs w !! wheel_build_env for_env with
  | Some w_env => if decide (w_env = self_ref cfg) then None else Some w_env
  | None => None
  end.

(** [perform_packaging(self, for_env)].  [display_context] only redirects
    what is shown and is left out. *)
Definition perform_packaging (for_env : EnvConfigSet) : M Ext (list Package) :=
  let of_type := package for_env in
  reqs ←
    (if decide (of_type = "wheel") then
       w ← get;
       match other_wheel_env for_env w with
       | Some w_env =>
           if is_Pep517VirtualEnvPackager X w_env then
             r ← call (EvEnvDependencies w_env)
                   (on_ext (env_get_package_dependencies X w_env));
             mret (Some r)
           else mret (Some [])
       | None => mret None
       end
     else mret None);
  reqs ←
    (match reqs with
     | None => get_package_dependencies
     | Some _ => mret reqs
     end);
  deps ←
    (match reqs with
     | Some reqs => mret (dependencies_with_extras X reqs (extras for_env))
     | None => raise (TypeError "'NoneType' object is not iterable")
     end);
  if decide (of_type = "dev-legacy") then
    own ← requires_;
    _frontend cfg X;;
    r ← call (EvCommand "get_requires_for_build_sdist" [] ∅)
          (Frontend_get_requires_for_build_sdist X [] ∅);
    mret [DevLegacyPackage (tox_root cfg) ((own ++ requires r) ++ deps)]
  else if decide (of_type = "sdist") then
    path ←
      with_lock
        (_frontend cfg X;;
         r ← build_sdist X [] {["sdist_directory" := VPath (pkg_dir cfg)]};
         sdist_of r);
    mret [SdistPackage path deps]
  else if decide (of_type = "wheel") then
    w ← get;
    match other_wheel_env for_env w with
    | Some w_env =>
        call (EvEnvPackaging w_env for_env)
          (on_ext (env_perform_packaging X w_env for_env))
    | None =>
        path ←
          with_lock
            (_frontend cfg X;;
             metadata_directory ← meta_folder;
             r ← build_wheel X []
                   (<["wheel_directory" := VPath (pkg_dir cfg)]>
                      (<["metadata_directory" := VPath metadata_directory]>
                         (<["config_settings" := _wheel_config_settings]> ∅)));
             wheel_of r);
        mret [WheelPackage path deps]
    end
  else raise (TypeError ("cannot handle package type " +:+ of_type)).

(** [_teardown] *)
Definition _teardown : M Ext unit :=
  _frontend cfg X;;
  executor ← backend_executor cfg X;
  try_finally
    (try_except
       (w ← get;
        if Executor_is_alive X executor w then _send X "_exit" ∅;; mret ()
        else mret ())
       is_SystemExit (λ _, mret ()))
    (call (EvClose executor) (Executor_close X executor));;
  call EvTeardown (ToxEnv__teardown X).

(** [n] calls of [m] in a row. *)
Fixpoint repeat_calls {A} (m : M Ext A) (n : nat) : M Ext (list A) :=
  match n with
  | 0 => mret []
  | S n' => a ← m; l ← repeat_calls m n'; mret (a :: l)
  end.

End Packager.

(** The number of [prepare_metadata_for_build_wheel] commands in a trace. *)
Definition is_prepare_metadata (ev : event) : bool :=
  match ev with
  | EvCommand name _ _ => bool_decide (name = "prepare_metadata_for_build_wheel")
  | _ => false
  end.

Definition count_prepare (l : list event) : nat :=
  length (filter (λ ev, is_prepare_metadata ev = true) l).

(** ** A scripted project

    A backend that has no metadata hook and dies on [_exit], a project that
    requires [setuptools] to build and [foo>=1] to run.  The state of the
    outside world is the number of wheels built so far. *)

Module Scripted.

Definition hook_missing : failure :=
  {| code := VInt 1; exc_type := VStr "RuntimeError";
     exc_msg := VStr "hook missing"; out := "building"; err := "no hook" |}.

Definition send (cmd : string) (kw : kwargs) : extern nat (pyval * string * string) :=
  λ w,
  if decide (cmd = "_exit") then (Raise (SystemExit (VInt 0)), w)
  else if decide (cmd = "build_wheel") then
    (Ok (VStr "pkg-1.0-py3-none-any.whl", "", ""), w)
  else (Raise (BackendFailed hook_missing), w).

Definition unexpected_response (cmd : string) (got expected_type : pyval)
    (out err : string) : extern nat unit :=
  λ w,
  (Raise (BackendFailed
     {| code := VNone; exc_type := VStr "TypeError";
        exc_msg := VStr "unexpected response"; out := out; err := err |}), w).

Definition wheel_name (built : nat) : string :=
  match built with
  | 0 => "pkg-1.0-py3-none-any.whl"
  | _ => "pkg-1.0-rebuilt.whl"
  end.

Definition lib_build_wheel (args : list pyval) (kw : kwargs) : extern nat build_result :=
  λ w,
  match kw !! "wheel_directory" with
  | Some (VPath d) =>
      (Ok (WheelResult (path_div d (wheel_name (ext w))) "" ""), set_ext (S (ext w)) w)
  | _ => (Raise (TypeError "wheel_directory"), w)
  end.

Definition lib_build_sdist (args : list pyval) (kw : kwargs) : extern nat build_result :=
  λ w,
  match kw !! "sdist_directory" with
  | Some (VPath d) => (Ok (SdistResult (path_div d "pkg-1.0.tar.gz") "" ""), w)
  | _ => (Raise (TypeError "sdist_directory"), w)
  end.

Definition X : Collaborators nat :=
  {| Frontend_create_args_from_folder := λ root w,
       (Ok {| backend_paths := []; backend_args := ["backend.py"; "True"];
              static_requires := [{| req := "setuptools" |}] |}, w);
     Frontend__send := send;
     Frontend__unexpected_response := unexpected_response;
     Frontend_build_wheel := lib_build_wheel;
     Frontend_build_sdist := lib_build_sdist;
     Frontend_prepare_metadata_for_build_wheel := λ args kw w,
       (Ok {| metadata := "/project/.tox/.pkg/.meta/pkg-1.0.dist-info";
              metadata_out := ""; metadata_err := "" |}, w);
     Frontend_get_requires_for_build_sdist := λ args kw w,
       (Ok {| requires := [{| req := "wheel" |}];
              requires_out := ""; requires_err := "" |}, w);
     ToxEnv_setup := λ w, (Ok (), w);
     ToxEnv__teardown := λ w, (Ok (), w);
     ToxEnv_environment_variables := λ w, (Ok ∅, w);
     PythonPackageToxEnv_register_run_env := λ package w, (Ok (), w);
     Path_mkdir := λ p w, (Ok (), w);
     PathDistribution_requires := λ d w, (Ok (Some ["foo>=1"]), w);
     Requirement___init__ := λ s, Ok {| req := s |};
     dependencies_with_extras := λ reqs extras, reqs;
     Executor_is_alive := λ e w, true;
     Executor_close := λ e w, (Ok (), w);
     is_Pep517VirtualEnvPackager := λ w_env, true;
     env_get_package_dependencies := λ w_env x, (Ok [{| req := "foo>=1" |}], x);
     env_perform_packaging := λ w_env for_env x,
       (Ok [WheelPackage "/project/.tox/.pkg-cpython/dist/pkg-1.0-cp.whl"
              [{| req := "foo>=1" |}]], x) |}.

Definition cfg : Config :=
  {| self_ref := 0; package_root := "/project"; tox_root := "/project";
     pkg_dir := "/project/.tox/.pkg/dist"; meta_dir := "/project/.tox/.pkg/.meta";
     env_dir := "/project/.tox/.pkg"; is_colored := false; pathsep := ":" |}.

(** A new session. *)
Definition start : World nat := Pep517VirtualEnvPackager___init__ 0.

(** A run environment that wants a wheel has registered. *)
Definition wheel_wanted : World nat := set_builds (λ s, s ∪ {["wheel"]}) start.


Definition wheel_for_py : EnvConfigSet :=
  {| package := "wheel"; wheel_build_env := "py"; extras := ∅ |}.

Definition dev_legacy_for_py : EnvConfigSet :=
  {| package := "dev-legacy"; wheel_build_env := "py"; extras := ∅ |}.

(** What the scripted session is expected to produce. *)
Definition avoid_redundant_failure : failure :=
  {| code := VInt 1; exc_type := VStr "AvoidRedundant";
     exc_msg := VStr "will need to build wheel either way, avoid prepare";
     out := ""; err := "" |}.

Definition foo : Requirement := {| req := "foo>=1" |}.

Definition first_wheel : build_result :=
  WheelResult "/project/.tox/.pkg/dist/pkg-1.0-py3-none-any.whl" "" "".

(** Two wheel builds that differ in their config settings. *)
Definition plain_build : kwargs :=
  <["wheel_directory" := VPath "/project/.tox/.pkg/dist"]>
    (<["config_settings" := VNone]> ∅).


End Scripted.

(** ** Environment setup: [_setup_env] *)

Record RequiresBuildWheelResult := {
  wheel_requires : list Requirement;
  wheel_requires_out : string;
  wheel_requires_err : string;
}.

(** What [_setup_env] calls outside this file beyond the collaborators
    above: [_setup_env] of the base classes, the wheel requirements hook of
    the base client and [self.installer.install]. *)
Record SetupCollaborators {Ext : Type} := {
  super__setup_env : extern Ext unit;
  Frontend_get_requires_for_build_wheel :
    list pyval → kwargs → extern Ext RequiresBuildWheelResult;
  installer_install : list Requirement → string → string → extern Ext unit;
}.
Arguments SetupCollaborators : clear implicits.

Section Setup.
Context {Ext : Type} (cfg : Config) (X : Collaborators Ext)
  (Y : SetupCollaborators Ext).

(** The trace entries of the three calls. *)
Definition EvSuperSetupEnv : event := EvCommand "super()._setup_env" [] ∅.

Definition EvInstall (reqs : list Requirement) (section : string) : event :=
  EvCommand "installer.install"
    [VList (map (λ r, VStr (req r)) reqs); VStr "PythonPackageToxEnv";
     VStr section] ∅.

(** [self.installer.install(build_requires, PythonPackageToxEnv.__name__,
    section)] *)
Definition install (build_requires : list Requirement) (section : string) :
    M Ext unit :=
  call (EvInstall build_requires section)
    (installer_install Y build_requires "PythonPackageToxEnv" section).

(** [_setup_env]: after the base classes, the build requirements of the
    kinds of package recorded in [builds] are asked from the backend and
    installed, those for a wheel first. *)
Definition _setup_env : M Ext unit :=
  call EvSuperSetupEnv (super__setup_env Y);;
  w ← get;
  (if decide ("wheel" ∈ builds w) then
     _frontend cfg X;;
     r ← call (EvCommand "get_requires_for_build_wheel" [] ∅)
           (Frontend_get_requires_for_build_wheel Y [] ∅);
     install (wheel_requires r) "requires_for_build_wheel"
   else mret ());;
  w ← get;
  if decide ("sdist" ∈ builds w ∨ "external" ∈ builds w) then
    _frontend cfg X;;
    r ← call (EvCommand "get_requires_for_build_sdist" [] ∅)
          (Frontend_get_requires_for_build_sdist X [] ∅);
    install (requires r) "requires_for_build_sdist"
  else mret ().

End Setup.

(** ** Reading a trace *)

(** The sum of a weight over the entries of a trace. *)
Definition total (wt : event → Z) (l : list event) : Z :=
  foldr (λ ev n, (wt ev + n)%Z) 0%Z l.

(** A computation whose trace weighs nothing, whether it returns or
    raises. *)
Definition neutral {Ext A} (wt : event → Z) (m : M Ext A) : Prop :=
  ∀ w r w1 l, m w = (r, w1, l) → total wt l = 0%Z.

(** A computation whose trace weighs at most [n], whether it returns or
    raises. *)
Definition bounded {Ext A} (wt : event → Z) (n : Z) (m : M Ext A) : Prop :=
  ∀ w r w1 l, m w = (r, w1, l) → (0 ≤ total wt l ≤ n)%Z.

(** The metadata command weighs one. *)
Definition prepare_weight (ev : event) : Z :=
  if is_prepare_metadata ev then 1 else 0.

(** Taking the lock weighs one, releasing it minus one. *)
Definition lock_weight (ev : event) : Z :=
  match ev with
  | EvAcquire => 1
  | EvRelease => -1
  | _ => 0
  end.

(** How often the lock is taken and released in a trace. *)
Definition is_acquire (ev : event) : bool :=
  match ev with
  | EvAcquire => true
  | _ => false
  end.

Definition is_release (ev : event) : bool :=
  match ev with
  | EvRelease => true
  | _ => false
  end.

Definition acquired (l : list event) : nat :=
  length (filter (λ ev, is_acquire ev = true) l).

Definition released (l : list event) : nat :=
  length (filter (λ ev, is_release ev = true) l).

(** [[Requirement(i) for i in requires]] as a function of the strings: the
    parsed requirements, or the error of the first string that does not
    parse. *)
Fixpoint Requirements_of {Ext} (X : Collaborators Ext) (l : list string) :
    result (list Requirement) :=
  match l with
  | [] => Ok []
  | i :: l' =>
      match Requirement___init__ X i with
      | Ok r =>
          match Requirements_of X l' with
          | Ok rs => Ok (r :: rs)
          | Raise e => Raise e
          end
      | Raise e => Raise e
      end
  end.

(** ** The scripted project, set up *)

Module ScriptedSetup.

Definition Y : SetupCollaborators nat :=
  {| super__setup_env := λ w, (Ok (), w);
     Frontend_get_requires_for_build_wheel := λ args kw w,
       (Ok {| wheel_requires := [{| req := "wheel" |}];
              wheel_requires_out := ""; wheel_requires_err := "" |}, w);
     installer_install := λ reqs of_type section w, (Ok (), w) |}.

(** A session whose only run environment uses the legacy development mode,
    and one that installs a package built elsewhere. *)
Definition dev_legacy_wanted : World nat :=
  set_builds (λ s, s ∪ {["dev-legacy"]}) Scripted.start.

Definition external_wanted : World nat :=
  set_builds (λ s, s ∪ {["external"]}) Scripted.start.

Definition sdist_for_py : EnvConfigSet :=
  {| package := "sdist"; wheel_build_env := "py"; extras := ∅ |}.

Definition external_for_py : EnvConfigSet :=
  {| package := "external"; wheel_build_env := "py"; extras := ∅ |}.

(** The scripted project with another metadata reader, requirement parser,
    base client and executor. *)
Definition variant (reader : PathDistribution → extern nat (option (list string)))
    (parser : string → result Requirement)
    (send : string → kwargs → extern nat (pyval * string * string))
    (alive : bool) : Collaborators nat :=
  {| Frontend_create_args_from_folder :=
       Frontend_create_args_from_folder Scripted.X;
     Frontend__send := send;
     Frontend__unexpected_response := Frontend__unexpected_response Scripted.X;
     Frontend_build_wheel := Frontend_build_wheel Scripted.X;
     Frontend_build_sdist := Frontend_build_sdist Scripted.X;
     Frontend_prepare_metadata_for_build_wheel :=
       Frontend_prepare_metadata_for_build_wheel Scripted.X;
     Frontend_get_requires_for_build_sdist :=
       Frontend_get_requires_for_build_sdist Scripted.X;
     ToxEnv_setup := ToxEnv_setup Scripted.X;
     ToxEnv__teardown := ToxEnv__teardown Scripted.X;
     ToxEnv_environment_variables := ToxEnv_environment_variables Scripted.X;
     PythonPackageToxEnv_register_run_env :=
       PythonPackageToxEnv_register_run_env Scripted.X;
     Path_mkdir := Path_mkdir Scripted.X;
     PathDistribution_requires := reader;
     Requirement___init__ := parser;
     dependencies_with_extras := dependencies_with_extras Scripted.X;
     Executor_is_alive := λ e w, alive;
     Executor_close := Executor_close Scripted.X;
     is_Pep517VirtualEnvPackager := is_Pep517VirtualEnvPackager Scripted.X;
     env_get_package_dependencies := env_get_package_dependencies Scripted.X;
     env_perform_packaging := env_perform_packaging Scripted.X |}.

(** A project whose metadata lists no requirements. *)
Definition bare : Collaborators nat :=
  variant (λ d w, (Ok None, w)) (Requirement___init__ Scripted.X)
    Scripted.send true.

(** A project whose second requirement does not parse. *)
Definition invalid : exn := OtherError "InvalidRequirement" "foo>".

Definition broken : Collaborators nat :=
  variant (λ d w, (Ok (Some ["bar"; "foo>"; "baz"]), w))
    (λ s, if decide (s = "foo>") then Raise invalid else Ok {| req := s |})
    Scripted.send true.

(** A backend that has died before teardown, and one that is interrupted
    while it is asked to exit. *)
Definition dead : Collaborators nat :=
  variant (PathDistribution_requires Scripted.X)
    (Requirement___init__ Scripted.X) Scripted.send false.

Definition interrupted : Collaborators nat :=
  variant (PathDistribution_requires Scripted.X)
    (Requirement___init__ Scripted.X)
    (λ cmd kw w, (Raise KeyboardInterrupt, w)) true.








(** The executor of the scripted project. *)
Definition executor : Executor :=
  {| colored := false; cmd := ["python"; "backend.py"; "True"]; env := ∅;
     cwd := "/project" |}.

(** The output of a backend that has answered, and the same output before
    the answer. *)
Definition answered : Completion.ExecuteStatus :=
  {| Completion.exit_code := None;
     Completion.out :=
       Bytes.b "Backend: run command build_sdist" ++ Completion.newline
         ++ Bytes.b "Backend: Wrote response /tmp/result.json"
         ++ Completion.newline |}.

Definition running : Completion.ExecuteStatus :=
  {| Completion.exit_code := None;
     Completion.out :=
       Bytes.b "Backend: run command build_sdist" ++ Completion.newline |}.

End ScriptedSetup.
End Pep517.

(** * Properties *)

(** ** Byte strings *)

Section BytesFacts.
Import Bytes.

Lemma startswith_spec sep s :
  startswith sep s = true ↔ ∃ post, s = sep ++ post.
Proof.
  revert s; induction sep as [|x sep IH]; intros s; simpl.
  - split; [eauto | done].
  - destruct s as [|y s].
    + split; [done | intros [post Hp]; discriminate].
    + rewrite andb_true_iff, IH. split.
      * intros [Hxy [post ->]].
        apply Byte.byte_dec_bl in Hxy as ->. by exists post.
      * intros [post Hp]. injection Hp as -> ->.
        split; [apply Byte.byte_dec_lb; reflexivity | eauto].
Qed.

Lemma contains_byte c s : contains [c] s = true ↔ In c s.
Proof.
  induction s as [|y s IH]; simpl.
  - split; [done | tauto].
  - rewrite orb_true_iff, IH, andb_true_r. split.
    + intros [H | H]; [left | by right].
      by apply Byte.byte_dec_bl in H.
    + intros [-> | H]; [left | by right].
      apply Byte.byte_dec_lb; reflexivity.
Qed.

(** What [rfind] returns is an occurrence ... *)
Lemma rfind_Some sep s i :
  rfind sep s = Some i → ∃ post, s = take i s ++ sep ++ post.
Proof.
  revert i; induction s as [|y s IH]; intros i; simpl.
  - destruct (startswith sep []) eqn:E; [|done].
    intros [= <-]. by apply startswith_spec in E.
  - destruct (rfind sep s) as [j|] eqn:Ej.
    + intros [= <-]. destruct (IH j eq_refl) as [post Hp].
      exists post. simpl. by rewrite <- Hp.
    + destruct (startswith sep (y :: s)) eqn:E; [|done].
      intros [= <-]. by apply startswith_spec in E.
Qed.

(** ... and no occurrence starts later. *)
Lemma rfind_last sep s pre post :
  s = pre ++ sep ++ post → ∃ i, rfind sep s = Some i ∧ length pre ≤ i.
Proof.
  revert pre; induction s as [|y s IH]; intros pre Hs.
  - destruct pre; [|done]. simpl in *.
    assert (startswith sep [] = true) as -> by (apply startswith_spec; eauto).
    exists 0. split; [done | simpl; lia].
  - destruct pre as [|p pre]; simpl in *.
    + destruct (rfind sep s) as [j|]; [exists (S j); split; [done | lia]|].
      assert (startswith sep (y :: s) = true) as ->
        by (apply startswith_spec; eauto).
      exists 0. split; [done | lia].
    + injection Hs as -> Hs. destruct (IH pre Hs) as (j & -> & Hj).
      exists (S j). split; [done | lia].
Qed.

Lemma rfind_None sep s pre post : rfind sep s = None → s ≠ pre ++ sep ++ post.
Proof.
  intros Hn Hs. destruct (rfind_last sep s pre post Hs) as (i & Hi & _).
  congruence.
Qed.

End BytesFacts.

(** ** The completion detector *)

Section CompletionFacts.
Import Bytes Completion.

Lemma sentinel_here s :
  startswith sentinel s && contains newline (drop (length sentinel) s) = true
  ↔ ∃ path post, s = sentinel ++ path ++ newline ++ post.
Proof.
  rewrite andb_true_iff, startswith_spec. unfold newline at 1.
  rewrite contains_byte. split.
  - intros [[rest ->] Hin]. rewrite drop_app_length in Hin.
    apply in_split in Hin as (path & post & ->). by exists path, post.
  - intros (path & post & ->). split; [eauto|].
    rewrite drop_app_length. apply in_or_app. right. by left.
Qed.

Lemma sentinel_lineb_spec s : sentinel_lineb s = true ↔ sentinel_line s.
Proof.
  unfold sentinel_line. induction s as [|y s IH].
  - cbn -[sentinel startswith contains]. rewrite orb_false_r, sentinel_here.
    split.
    + intros (path & post & H). by exists [], path, post.
    + intros (pre & path & post & H). destruct pre; [|done].
      by exists path, post.
  - cbn -[sentinel startswith contains length].
    rewrite orb_true_iff, sentinel_here, IH. split.
    + intros [(path & post & H) | (pre & path & post & H)].
      * by exists [], path, post.
      * exists (y :: pre), path, post. by rewrite H.
    + intros (pre & path & post & H). destruct pre as [|p pre].
      * left. by exists path, post.
      * right. exists pre, path, post. by injection H.
Qed.

Lemma rpartition_sentinel s :
  rpartition sentinel s =
  Some match rfind sentinel s with
       | Some i => (take i s, sentinel, drop (i + length sentinel) s)
       | None => ([], [], s)
       end.
Proof. reflexivity. Qed.

(** [done] always returns: the separator is not empty. *)
Lemma done_total status : ∃ r, done status = Some r.
Proof.
  unfold done. destruct (exit_code status); [eauto|].
  rewrite rpartition_sentinel.
  destruct (rfind sentinel (out status)); simpl; eauto.
Qed.

(** What the second test of [done] computes on a running process: a newline
    somewhere before an occurrence of the sentinel. *)
Lemma done_live_iff status :
  exit_code status = None →
  done status = Some true ↔
  ∃ pre post, out status = pre ++ sentinel ++ post ∧ In x0a pre.
Proof.
  intros Hlive. unfold done. rewrite Hlive, rpartition_sentinel. split.
  - destruct (rfind sentinel (out status)) as [i|] eqn:Hi.
    + intros [= Hc]. apply contains_byte in Hc.
      destruct (rfind_Some _ _ _ Hi) as [post Hp].
      by exists (take i (out status)), post.
    + discriminate.
  - intros (pre & post & Hs & Hin).
    destruct (rfind_last _ _ _ _ Hs) as (i & -> & Hle).
    cbn [mbind option_bind]. f_equal. apply contains_byte.
    rewrite Hs, take_app_ge by done.
    apply in_or_app. by left.
Qed.

(** C9. When the exit code of the backend process is set, whatever its value
    and whatever the output collected so far (the empty output included),
    [done] reports that the command has finished. *)
Theorem done_process_exited (code : Z) (output : bytes) :
  done {| exit_code := Some code; out := output |} = Some true.
Proof. reflexivity. Qed.

(** C1. On a running process [done] looks for the newline in front of the
    last sentinel, not after it.  An output that consists of the complete
    sentinel line alone is reported as not finished, and an output with an
    earlier line followed by a sentinel that has no newline yet is reported as
    finished: the opposite of the sentinel rule on both inputs. *)
Theorem done_sentinel_divergence :
  let only_line :=
    {| exit_code := None; out := b "Backend: Wrote response /x/y" ++ newline |} in
  let unterminated :=
    {| exit_code := None;
       out := b "started" ++ newline ++ b "Backend: Wrote response /x/y" |} in
  (sentinel_line (out only_line) ∧ done only_line = Some false) ∧
  (¬ sentinel_line (out unterminated) ∧ done unterminated = Some true).
Proof.
  cbv zeta. repeat split.
  - apply sentinel_lineb_spec. vm_compute. reflexivity.
  - intros H. apply sentinel_lineb_spec in H. vm_compute in H. discriminate.
Qed.

End CompletionFacts.

(** ** The completion detector on growing output *)

Section CompletionGrowth.
Import Bytes Completion.

(** On a running process the command is reported finished exactly when the
    output holds a newline somewhere in front of an occurrence of the
    sentinel. *)
Theorem done_running_iff_newline_before_sentinel (status : ExecuteStatus) :
  exit_code status = None →
  done status = Some true ↔
  ∃ pre post, out status = pre ++ sentinel ++ post ∧ In x0a pre.
Proof. apply done_live_iff. Qed.

(** A command reported finished on a running process stays finished when
    more output arrives, whether or not the process has exited by then. *)
Theorem done_is_stable (status later : ExecuteStatus) (more : bytes) :
  exit_code status = None →
  done status = Some true →
  out later = out status ++ more →
  done later = Some true.
Proof.
  intros Hlive Hdone Hout.
  destruct (exit_code later) as [c|] eqn:Hlater.
  - unfold done. by rewrite Hlater.
  - apply done_live_iff; [done|].
    apply done_live_iff in Hdone as (pre & post & Hs & Hin); [|done].
    exists pre, (post ++ more). split; [|done].
    by rewrite Hout, Hs, <- !(assoc_L (++)).
Qed.

(** A running process is never reported finished while its output has no
    newline, or while the sentinel is not found in it. *)
Theorem done_needs_newline_and_sentinel (status : ExecuteStatus) :
  exit_code status = None →
  ¬ In x0a (out status) ∨ rfind sentinel (out status) = None →
  done status = Some false.
Proof.
  intros Hlive Hno.
  destruct (done_total status) as [[|] Hr]; [|done].
  apply done_live_iff in Hr as (pre & post & Hs & Hin); [|done].
  destruct Hno as [Hnl | Hnone].
  - destruct Hnl. rewrite Hs. apply in_or_app. by left.
  - by apply (rfind_None _ _ pre post) in Hnone.
Qed.

End CompletionGrowth.

(** ** The protocol client *)

Section ClientFacts.
Import Py Pep517.
Context {Ext : Type} (X : Collaborators Ext).

(** The wrapper copies the five attributes. *)
Lemma ToxBackendFailed_init_same f : ToxBackendFailed___init__ f = f.
Proof. by destruct f. Qed.

(** Whatever leaves a block guarded by [except BackendFailed] with the
    rewrapping handler is no plain [BackendFailed]. *)
Lemma try_rewrap_raises {A} (m : M Ext A) w e w' l :
  try_except m is_BackendFailed rewrap w = (Raise e, w', l) →
  is_BackendFailed e = true → is_ToxBackendFailed e = true.
Proof.
  unfold try_except. destruct (m w) as [[[a|e0] w0] l0]; [done|].
  destruct (is_BackendFailed e0) eqn:He0.
  - destruct e0; simpl in He0; try done; intros [= <- _ _]; done.
  - intros [= <- _ _]. congruence.
Qed.

(** A failure of the base client comes out wrapped, with the same
    attributes. *)
Lemma try_rewrap_BackendFailed {A} (m : M Ext A) w f w' l :
  m w = (Raise (BackendFailed f), w', l) →
  try_except m is_BackendFailed rewrap w = (Raise (ToxBackendFailed f), w', l).
Proof.
  intros Hm. unfold try_except. rewrite Hm. simpl.
  by rewrite ToxBackendFailed_init_same, app_nil_r.
Qed.

(** A wrapped failure comes out as it is. *)
Lemma try_rewrap_ToxBackendFailed {A} (m : M Ext A) w f w' l :
  m w = (Raise (ToxBackendFailed f), w', l) →
  try_except m is_BackendFailed rewrap w = (Raise (ToxBackendFailed f), w', l).
Proof.
  intros Hm. unfold try_except. rewrite Hm. simpl. by rewrite app_nil_r.
Qed.

(** C2. A [BackendFailed] that leaves [_send] or [_unexpected_response] is a
    [ToxBackendFailed]; a failure of the base client is wrapped with its
    code, exception type, exception message, output and error output
    unchanged; wrapping a wrapped failure again gives the same five
    attributes, and the handler re-raises a wrapped failure as it is. *)
Theorem backend_failures_are_rewrapped :
  (∀ cmd kw w e w' l,
     _send X cmd kw w = (Raise e, w', l) →
     is_BackendFailed e = true → is_ToxBackendFailed e = true) ∧
  (∀ cmd got expected_type out err w e w' l,
     _unexpected_response X cmd got expected_type out err w = (Raise e, w', l) →
     is_BackendFailed e = true → is_ToxBackendFailed e = true) ∧
  (∀ cmd got expected_type out err w f w',
     Frontend__unexpected_response X cmd got expected_type out err w
       = (Raise (BackendFailed f), w') →
     _unexpected_response X cmd got expected_type out err w
       = (Raise (ToxBackendFailed f), w', [EvUnexpectedResponse cmd])) ∧
  (∀ cmd kw w f w',
     cmd ≠ "prepare_metadata_for_build_wheel" ∨ "wheel" ∉ builds w →
     Frontend__send X cmd kw w = (Raise (BackendFailed f), w') →
     _send X cmd kw w = (Raise (ToxBackendFailed f), w', [EvSend cmd kw])) ∧
  (∀ f,
     ToxBackendFailed___init__ (ToxBackendFailed___init__ f)
       = ToxBackendFailed___init__ f ∧
     ToxBackendFailed___init__ f = f) ∧
  (∀ f w,
     rewrap (Ext := Ext) (A := unit) (ToxBackendFailed f) w
       = (Raise (ToxBackendFailed f), w, [])).
Proof.
  split_and!.
  - intros cmd kw w e w' l. apply try_rewrap_raises.
  - intros cmd got expected_type out err w e w' l. apply try_rewrap_raises.
  - intros cmd got expected_type out err w f w' Hb.
    apply try_rewrap_BackendFailed. unfold call. by rewrite Hb.
  - intros cmd kw w f w' Hc Hb. apply try_rewrap_BackendFailed.
    unfold mbind, M_bind, bind, get, call; simpl.
    destruct (decide (cmd = _)) as [->|];
      [destruct (decide ("wheel" ∈ builds w)); [by destruct Hc|]|];
      simpl; by rewrite Hb.
  - intros f. by rewrite !ToxBackendFailed_init_same.
  - done.
Qed.

(** C3. When a wheel build is recorded in [builds], sending
    [prepare_metadata_for_build_wheel] raises the [AvoidRedundant] failure
    with code 1, wrapped, and nothing else happens: the state is the one
    before the call and no outside call is made, so that no request reaches
    the base client or the backend process. *)
Theorem prepare_metadata_is_short_circuited (kw : kwargs) (w : World Ext) :
  "wheel" ∈ builds w →
  _send X "prepare_metadata_for_build_wheel" kw w =
    (Raise (ToxBackendFailed
       {| code := VInt 1; exc_type := VStr "AvoidRedundant";
          exc_msg := VStr "will need to build wheel either way, avoid prepare";
          out := ""; err := "" |}), w, []).
Proof.
  intros Hw. unfold _send.
  apply (try_rewrap_BackendFailed _ w _ w []).
  unfold mbind, M_bind, bind, get; simpl.
  destruct (decide ("wheel" ∈ builds w)); done.
Qed.

End ClientFacts.

(** ** The result cache *)

Section CacheFacts.
Import Py Pep517.
Context {Ext : Type} (X : Collaborators Ext).

(** The key looks at the keyword [wheel_directory] and at nothing else. *)
Lemma pkg_cache_key_wheel args (kw : kwargs) :
  is_Some (kw !! "wheel_directory") → pkg_cache_key args kw = "wheel".
Proof. intros [v Hv]. unfold pkg_cache_key. by rewrite Hv. Qed.

Lemma pkg_cache_key_sdist args (kw : kwargs) :
  kw !! "wheel_directory" = None → pkg_cache_key args kw = "sdist".
Proof. intros Hv. unfold pkg_cache_key. by rewrite Hv. Qed.

(** A stored value is returned; the method is not called. *)
Lemma pkg_cache_hit func args kw (w : World Ext) v :
  into w !! pkg_cache_key args kw = Some v →
  pkg_cache func args kw w = (Ok v, w, []).
Proof.
  intros Hv. unfold pkg_cache, cached, mbind, M_bind, bind, get; simpl.
  by rewrite Hv.
Qed.

(** Without a stored value the method is called; what it returns is stored
    under the key, what it raises goes through and nothing is stored. *)
Lemma pkg_cache_miss func args kw (w : World Ext) :
  into w !! pkg_cache_key args kw = None →
  pkg_cache func args kw w =
    match func args kw w with
    | (Ok v, w1, l) => (Ok v, set_into (insert (pkg_cache_key args kw) v) w1, l)
    | (Raise e, w1, l) => (Raise e, w1, l)
    end.
Proof.
  intros Hv. unfold pkg_cache, cached, mbind, M_bind, bind, get, modify; simpl.
  rewrite Hv. destruct (func args kw w) as [[[v|e] w1] l]; [|done].
  simpl. by rewrite app_nil_r.
Qed.




(** C10. The entry of the cache a call uses is chosen by the presence of the
    keyword [wheel_directory] alone, for [build_wheel] and [build_sdist]
    alike: with a value stored under that key both return it without calling
    the base client, and without one each calls its own method of the base
    client and stores what it returns under that key. *)
Theorem cache_entry_is_chosen_by_keyword (args : list pyval) (kw : kwargs)
    (w : World Ext) :
  let k := if decide (is_Some (kw !! "wheel_directory")) then "wheel" else "sdist" in
  pkg_cache_key args kw = k ∧
  (∀ v, into w !! k = Some v →
     build_wheel X args kw w = (Ok v, w, []) ∧
     build_sdist X args kw w = (Ok v, w, [])) ∧
  (into w !! k = None →
     (∀ v w1, Frontend_build_wheel X args kw w = (Ok v, w1) →
        build_wheel X args kw w
          = (Ok v, set_into (insert k v) w1, [EvCommand "build_wheel" args kw])) ∧
     (∀ v w1, Frontend_build_sdist X args kw w = (Ok v, w1) →
        build_sdist X args kw w
          = (Ok v, set_into (insert k v) w1, [EvCommand "build_sdist" args kw]))).
Proof.
  assert (pkg_cache_key args kw =
          if decide (is_Some (kw !! "wheel_directory")) then "wheel" else "sdist")
    as Hk.
  { destruct (decide _) as [Hs|Hn].
    - by apply pkg_cache_key_wheel.
    - apply pkg_cache_key_sdist. by apply eq_None_not_Some. }
  cbv zeta. rewrite <- Hk. split_and!; [done|..].
  - intros v Hv. split; by apply pkg_cache_hit.
  - intros Hn. split; intros v w1 Hf; unfold build_wheel, build_sdist;
      rewrite (pkg_cache_miss _ _ _ _ Hn); unfold call; by rewrite Hf.
Qed.

End CacheFacts.

(** ** The packaging environment *)

Section PackagerFacts.
Import Py Pep517.
Context {Ext : Type} (cfg : Config) (X : Collaborators Ext).

Lemma bind_Ok {A B} (m : M Ext A) (k : A → M Ext B) w a w1 l1 :
  m w = (Ok a, w1, l1) →
  (m ≫= k) w = let '(r, w2, l2) := k a w1 in (r, w2, l1 ++ l2).
Proof. intros Hm. unfold mbind, M_bind, bind. by rewrite Hm. Qed.

Lemma bind_Raise {A B} (m : M Ext A) (k : A → M Ext B) w e w1 l1 :
  m w = (Raise e, w1, l1) → (m ≫= k) w = (Raise e, w1, l1).
Proof. intros Hm. unfold mbind, M_bind, bind. by rewrite Hm. Qed.

Lemma bind_inv_Ok {A B} (m : M Ext A) (k : A → M Ext B) w b w2 l :
  (m ≫= k) w = (Ok b, w2, l) →
  ∃ a w1 l1 l2,
    m w = (Ok a, w1, l1) ∧ k a w1 = (Ok b, w2, l2) ∧ l = l1 ++ l2.
Proof.
  unfold mbind, M_bind, bind. destruct (m w) as [[[a|e] w1] l1]; [|done].
  destruct (k a w1) as [[r w3] l2] eqn:Hk. intros [= -> -> <-].
  by exists a, w1, l1, l2.
Qed.

Lemma get_bind {B} (k : World Ext → M Ext B) w : (get ≫= k) w = k w w.
Proof.
  unfold mbind, M_bind, bind, get. by destruct (k w w) as [[r w1] l].
Qed.

Lemma ret_bind {A B} (a : A) (k : A → M Ext B) w : (mret a ≫= k) w = k a w.
Proof.
  unfold mret, M_ret, ret, mbind, M_bind, bind.
  by destruct (k a w) as [[r w1] l].
Qed.

Lemma call_inv_Ok {A} ev (f : extern Ext A) w a w1 l :
  call ev f w = (Ok a, w1, l) → f w = (Ok a, w1) ∧ l = [ev].
Proof. unfold call. destruct (f w) as [r w0]. by intros [= -> -> <-]. Qed.

Lemma with_lock_run {A} (m : M Ext A) w :
  with_lock m w =
    let '(r, w1, l) := m (set_pkg_lock S w) in
    (r, set_pkg_lock pred w1, EvAcquire :: l ++ [EvRelease]).
Proof.
  unfold with_lock, mbind, M_bind, bind, try_finally.
  by destruct (m (set_pkg_lock S w)) as [[r w1] l].
Qed.

Lemma with_lock_inv_Ok {A} (m : M Ext A) w a w1 l :
  with_lock m w = (Ok a, w1, l) →
  ∃ w0 l0,
    m (set_pkg_lock S w) = (Ok a, w0, l0) ∧
    w1 = set_pkg_lock pred w0 ∧ l = EvAcquire :: l0 ++ [EvRelease].
Proof.
  rewrite with_lock_run. destruct (m (set_pkg_lock S w)) as [[r w0] l0].
  intros [= -> <- <-]. by exists w0, l0.
Qed.

Lemma count_prepare_app l1 l2 :
  count_prepare (l1 ++ l2) = count_prepare l1 + count_prepare l2.
Proof. unfold count_prepare. by rewrite filter_app, length_app. Qed.

Lemma count_prepare_cons ev l :
  count_prepare (ev :: l)
    = (if is_prepare_metadata ev then 1 else 0) + count_prepare l.
Proof.
  unfold count_prepare. rewrite filter_cons.
  destruct (is_prepare_metadata ev); by case_decide.
Qed.

Lemma count_prepare_nil : count_prepare [] = 0.
Proof. reflexivity. Qed.

Ltac count_trace :=
  repeat first
    [ rewrite count_prepare_app
    | rewrite count_prepare_cons
    | rewrite count_prepare_nil ];
  cbn [is_prepare_metadata];
  repeat match goal with H : count_prepare _ = _ |- _ => rewrite H end;
  try reflexivity.

Lemma unlock_lock (w : World Ext) : set_pkg_lock pred (set_pkg_lock S w) = w.
Proof. by destruct w. Qed.

(** A run environment that registers leaves its package kind in [builds]. *)
Lemma register_run_env_records package (w : World Ext) w1 l :
  register_run_env X package w = (Ok (), w1, l) → package ∈ builds w1.
Proof.
  intros H. unfold register_run_env in H.
  apply bind_inv_Ok in H as ([] & w2 & l2 & l3 & _ & Hadd & ->).
  injection Hadd as <- _. cbn. set_solver.
Qed.

(** Parsing requirement strings touches nothing. *)
Lemma parse_requirements_pure l (w : World Ext) :
  ∃ r, parse_requirements X l w = (r, w, []).
Proof.
  induction l as [|i l [r IH]]; simpl; [by eexists|].
  unfold mbind, M_bind, bind.
  destruct (Requirement___init__ X i) as [q|e]; simpl; [|by eexists].
  rewrite IH. destruct r; simpl; by eexists.
Qed.

(** With the frontend in place, [_frontend] does nothing. *)
Lemma frontend_created (w : World Ext) :
  frontend_private w = true → _frontend cfg X w = (Ok (), w, []).
Proof.
  intros Hf. unfold _frontend, mbind, M_bind, bind, get; simpl. by rewrite Hf.
Qed.

(** [_frontend] makes no protocol call, and the frontend is in place when it
    returns. *)
Lemma frontend_returns (w : World Ext) w1 l :
  _frontend cfg X w = (Ok (), w1, l) →
  frontend_private w1 = true ∧ count_prepare l = 0.
Proof.
  unfold _frontend, mbind, M_bind, bind, get, call, modify; simpl.
  destruct (frontend_private w) eqn:Hf; simpl.
  - by intros [= <- <-].
  - destruct (Frontend_create_args_from_folder X _ w) as [[a|e] w0]; [|done].
    simpl. by intros [= <- <-].
Qed.

Lemma frontend_trace (w : World Ext) r w1 l :
  _frontend cfg X w = (r, w1, l) → count_prepare l = 0.
Proof.
  unfold _frontend, mbind, M_bind, bind, get, call, modify; simpl.
  destruct (frontend_private w) eqn:Hf; simpl.
  - by intros [= _ _ <-].
  - destruct (Frontend_create_args_from_folder X _ w) as [[a|e] w0];
      simpl; by intros [= _ _ <-].
Qed.

(** [_ensure_meta_present], when no metadata is known yet and it returns:
    one metadata command was issued and the metadata is known. *)
Lemma ensure_meta_present_first (w : World Ext) w1 l :
  distribution_meta w = None →
  _ensure_meta_present cfg X w = (Ok (), w1, l) →
  count_prepare l = 1 ∧ is_Some (distribution_meta w1).
Proof.
  intros Hd. unfold _ensure_meta_present.
  unfold mbind at 1, M_bind at 1, bind at 1, get at 1. simpl. rewrite Hd.
  unfold mbind at 1, M_bind at 1, bind at 1, call at 1.
  destruct (ToxEnv_setup X w) as [[[]|e] w2]; [|done]; simpl.
  unfold mbind at 1, M_bind at 1, bind at 1.
  destruct (_frontend cfg X w2) as [[[[]|e] w3] l3] eqn:Hfe; [|done].
  apply frontend_trace in Hfe.
  unfold meta_folder, mbind, M_bind, bind, call, modify; simpl.
  destruct (Path_mkdir X (meta_dir cfg) w3) as [[[]|e] w4]; [|done]; simpl.
  destruct (Frontend_prepare_metadata_for_build_wheel X _ ∅ w4)
    as [[r|e] w5]; [|done]; simpl.
  intros [= <- <-]. split; [|by eexists].
  count_trace.
Qed.

(** The first call of [get_package_dependencies] that returns: it issued
    one metadata command and what it returns is stored. *)
Lemma get_package_dependencies_first (w : World Ext) r w1 l :
  distribution_meta w = None →
  package_dependencies w = None →
  get_package_dependencies cfg X w = (Ok r, w1, l) →
  ∃ deps,
    r = Some deps ∧ package_dependencies w1 = Some deps ∧ count_prepare l = 1.
Proof.
  intros Hd Hp H. unfold get_package_dependencies in H.
  apply bind_inv_Ok in H as ([] & w2 & l2 & l3 & Hlock & Hget & ->).
  rewrite get_bind in Hget. injection Hget as <- <- <-.
  apply with_lock_inv_Ok in Hlock as (w0 & l0 & Hb & -> & ->).
  rewrite get_bind in Hb. cbn [package_dependencies set_pkg_lock] in Hb.
  rewrite Hp in Hb.
  apply bind_inv_Ok in Hb as ([] & w3 & l3 & l4 & Hm & Hb & ->).
  apply ensure_meta_present_first in Hm as [Hc [d Hd3]]; [|done].
  rewrite get_bind, Hd3 in Hb.
  apply bind_inv_Ok in Hb as (requires & w4 & l5 & l6 & Hr & Hb & ->).
  apply bind_inv_Ok in Hr as (rq & w5 & l7 & l8 & Hr & Hret & ->).
  apply call_inv_Ok in Hr as [_ ->]. injection Hret as _ _ <-.
  apply bind_inv_Ok in Hb as (deps & w6 & l9 & l10 & Hparse & Hset & ->).
  destruct (parse_requirements_pure requires w4) as [r' Hr'].
  rewrite Hr' in Hparse. injection Hparse as _ _ <-.
  injection Hset as <- <-.
  exists deps. split_and!; [done..|]. count_trace.
Qed.

(** A later call returns the stored list and issues nothing. *)
Lemma get_package_dependencies_cached (w : World Ext) deps :
  package_dependencies w = Some deps →
  get_package_dependencies cfg X w = (Ok (Some deps), w, [EvAcquire; EvRelease]).
Proof.
  intros Hp. unfold get_package_dependencies.
  erewrite bind_Ok; last first.
  { rewrite with_lock_run, get_bind.
    cbn [package_dependencies set_pkg_lock]. rewrite Hp.
    cbn. by rewrite unlock_lock. }
  rewrite get_bind. cbn. by rewrite Hp.
Qed.

Lemma repeat_calls_cached (w : World Ext) deps n :
  package_dependencies w = Some deps →
  ∃ l,
    repeat_calls (get_package_dependencies cfg X) n w
      = (Ok (replicate n (Some deps)), w, l) ∧
    count_prepare l = 0.
Proof.
  intros Hp. induction n as [|n (l & IH & Hl)]; [by exists []|].
  exists ([EvAcquire; EvRelease] ++ l). split; [|by count_trace].
  cbn [repeat_calls].
  erewrite bind_Ok by by apply get_package_dependencies_cached.
  erewrite bind_Ok by exact IH. cbn. by rewrite app_nil_r.
Qed.

(** C4. In a session where no dependencies are known yet, when the first
    call of [get_package_dependencies] returns, any run of two or more calls
    in a row returns: every call gives the same list, and the run issues the
    command [prepare_metadata_for_build_wheel] once, in the first call; the
    calls after the first issue none and leave the state as it is. *)
Theorem package_dependencies_are_resolved_once (w : World Ext) r w1 l1 :
  distribution_meta w = None →
  package_dependencies w = None →
  get_package_dependencies cfg X w = (Ok r, w1, l1) →
  ∃ deps,
    r = Some deps ∧ count_prepare l1 = 1 ∧
    ∀ n, ∃ l,
      repeat_calls (get_package_dependencies cfg X) (S (S n)) w
        = (Ok (replicate (S (S n)) (Some deps)), w1, l1 ++ l) ∧
      count_prepare l = 0 ∧ count_prepare (l1 ++ l) = 1.
Proof.
  intros Hd Hp H.
  destruct (get_package_dependencies_first _ _ _ _ Hd Hp H)
    as (deps & -> & Hp1 & Hc).
  exists deps. split_and!; [done..|]. intros n.
  destruct (repeat_calls_cached w1 deps (S n) Hp1) as (l & Hl & Hc0).
  exists l. split_and!; [|done|by count_trace].
  change (repeat_calls ?m (S ?k)) with (a ← m; l ← repeat_calls m k; mret (a :: l)).
  erewrite bind_Ok by exact H. erewrite bind_Ok by exact Hl.
  cbn. by rewrite app_nil_r.
Qed.

(** [requires] reads what the frontend holds. *)
Lemma requires_returns (w : World Ext) own w1 l :
  requires_ cfg X w = (Ok own, w1, l) →
  frontend_private w1 = true ∧ own = static_requires (frontend_args w1).
Proof.
  intros H. unfold requires_ in H.
  apply bind_inv_Ok in H as ([] & w2 & l2 & l3 & Hf & Hg & ->).
  rewrite get_bind in Hg. injection Hg as <- <- <-.
  by apply frontend_returns in Hf as [Hf _].
Qed.

Lemma not_wheel_kind (of_type : string) {A} (a b : A) :
  of_type = "dev-legacy" →
  (if decide (of_type = "wheel") then a else b) = b.
Proof. intros ->. by case_decide. Qed.

(** C7. For the kind [dev-legacy], when the package dependencies, the
    requirements of the project and the sdist build requirements of the
    backend are obtained, [perform_packaging] returns one [DevLegacyPackage]
    on the tox root, whose dependencies are the requirements the frontend
    read from the project, then the sdist build requirements, then the
    package dependencies expanded with the extras, in this order and with
    nothing removed. *)
Theorem dev_legacy_package_dependencies (for_env : EnvConfigSet)
    (w : World Ext) reqs w1 l1 own w2 l2 r w3 :
  package for_env = "dev-legacy" →
  get_package_dependencies cfg X w = (Ok (Some reqs), w1, l1) →
  requires_ cfg X w1 = (Ok own, w2, l2) →
  Frontend_get_requires_for_build_sdist X [] ∅ w2 = (Ok r, w3) →
  own = static_requires (frontend_args w2) ∧
  perform_packaging cfg X for_env w =
    (Ok [DevLegacyPackage (tox_root cfg)
           (own ++ requires r
              ++ dependencies_with_extras X reqs (extras for_env))],
     w3, l1 ++ l2 ++ [EvCommand "get_requires_for_build_sdist" [] ∅]).
Proof.
  intros Hk Hdeps Hown Hr.
  destruct (requires_returns _ _ _ _ Hown) as [Hfe Hst]. split; [done|].
  unfold perform_packaging. rewrite (not_wheel_kind _ _ _ Hk).
  rewrite ret_bind.
  erewrite bind_Ok by exact Hdeps. cbv beta iota.
  rewrite ret_bind, Hk.
  destruct (decide ("dev-legacy" = "dev-legacy")); [|done].
  erewrite bind_Ok by exact Hown.
  erewrite bind_Ok by by apply frontend_created.
  unfold mbind, M_bind, bind, call. rewrite Hr. cbn.
  by rewrite <- (assoc_L (++) own).
Qed.


Lemma set_ext_set_ext x1 x2 (w : World Ext) :
  set_ext x2 (set_ext x1 w) = set_ext x2 w.
Proof. reflexivity. Qed.


(** When nothing stops [_send] before the base client, it hands the command
    over and lets what is no backend failure through. *)
Lemma send_raises_SystemExit cmd kw (w : World Ext) status w1 :
  cmd ≠ "prepare_metadata_for_build_wheel" →
  Frontend__send X cmd kw w = (Raise (SystemExit status), w1) →
  _send X cmd kw w = (Raise (SystemExit status), w1, [EvSend cmd kw]).
Proof.
  intros Hc Hs. unfold _send, try_except.
  rewrite get_bind. destruct (decide (cmd = _)); [done|].
  rewrite ret_bind. unfold call. by rewrite Hs.
Qed.

(** C6, for the one signal the handler names.  At teardown, with the
    executor of the frontend alive, when the [_exit] command raises
    [SystemExit]: the signal is caught, the executor is closed all the same,
    and the outcome of [_teardown] is that of closing the executor and of the
    teardown of the base class, so that with those two returning [_teardown]
    returns and the [SystemExit] is gone.  Other exceptions, a
    [KeyboardInterrupt] among them, are not caught. *)
Theorem teardown_swallows_system_exit (w : World Ext) w0 l0 executor w1 l1
    status w2 :
  _frontend cfg X w = (Ok (), w0, l0) →
  backend_executor cfg X w0 = (Ok executor, w1, l1) →
  Executor_is_alive X executor w1 = true →
  Frontend__send X "_exit" ∅ w1 = (Raise (SystemExit status), w2) →
  _teardown cfg X w =
    (let '(closed, w3) := Executor_close X executor w2 in
     match closed with
     | Ok _ =>
         let '(r, w4) := ToxEnv__teardown X w3 in
         (r, w4,
          l0 ++ l1 ++ [EvSend "_exit" ∅; EvClose executor; EvTeardown])
     | Raise e =>
         (Raise e, w3, l0 ++ l1 ++ [EvSend "_exit" ∅; EvClose executor])
     end) ∧
  (∀ w3 w4,
     Executor_close X executor w2 = (Ok (), w3) →
     ToxEnv__teardown X w3 = (Ok (), w4) →
     _teardown cfg X w =
       (Ok (), w4,
        l0 ++ l1 ++ [EvSend "_exit" ∅; EvClose executor; EvTeardown])).
Proof.
  intros Hfe Hex Halive Hsend.
  assert (_teardown cfg X w =
    (let '(closed, w3) := Executor_close X executor w2 in
     match closed with
     | Ok _ =>
         let '(r, w4) := ToxEnv__teardown X w3 in
         (r, w4,
          l0 ++ l1 ++ [EvSend "_exit" ∅; EvClose executor; EvTeardown])
     | Raise e =>
         (Raise e, w3, l0 ++ l1 ++ [EvSend "_exit" ∅; EvClose executor])
     end)) as Heq.
  { unfold _teardown.
    erewrite bind_Ok by exact Hfe. erewrite bind_Ok by exact Hex.
    apply (send_raises_SystemExit "_exit" ∅) in Hsend; [|done].
    unfold mbind at 1, M_bind at 1, bind at 1, try_finally, try_except.
    rewrite get_bind, Halive.
    erewrite bind_Raise by exact Hsend. cbn [is_SystemExit].
    unfold mret, M_ret, ret, call.
    destruct (Executor_close X executor w2) as [[[]|e] w3]; cbn.
    - by destruct (ToxEnv__teardown X w3) as [r w4].
    - done. }
  split; [done|]. intros w3 w4 Hc Ht. by rewrite Heq, Hc, Ht.
Qed.

(** Whatever the [_exit] command does, [_teardown] closes the executor it
    found. *)
Lemma teardown_closes_executor (w : World Ext) w0 l0 executor w1 l1 r w2 l :
  _frontend cfg X w = (Ok (), w0, l0) →
  backend_executor cfg X w0 = (Ok executor, w1, l1) →
  _teardown cfg X w = (r, w2, l) →
  EvClose executor ∈ l.
Proof.
  intros Hfe Hex. unfold _teardown.
  erewrite bind_Ok by exact Hfe. erewrite bind_Ok by exact Hex.
  unfold mbind at 1, M_bind at 1, bind at 1, try_finally.
  destruct (try_except _ _ _ w1) as [[rb wb] lb].
  unfold call. destruct (Executor_close X executor wb) as [[[]|e] wc].
  - destruct rb as [[]|e].
    + destruct (ToxEnv__teardown X wc) as [rt wt].
      intros [= _ _ <-]. set_solver.
    + intros [= _ _ <-]. set_solver.
  - intros [= _ _ <-]. set_solver.
Qed.

End PackagerFacts.

(** ** More on the protocol client *)

Section ClientMore.
Import Py Pep517.
Context {Ext : Type} (cfg : Config) (X : Collaborators Ext).

(** [_send] reaches the base client once, except for the metadata command
    of a session that builds a wheel, which it never hands over: this holds
    whether the call returns or raises. *)
Theorem send_reaches_base_client_once (cmd : string) (kw : kwargs)
    (w : World Ext) :
  (_send X cmd kw w).2 =
    if decide (cmd = "prepare_metadata_for_build_wheel" ∧ "wheel" ∈ builds w)
    then [] else [EvSend cmd kw].
Proof.
  unfold _send, try_except. rewrite get_bind.
  destruct (decide (cmd = "prepare_metadata_for_build_wheel")) as [->|Hc].
  - destruct (decide ("wheel" ∈ builds w)) as [Hw|Hw].
    + rewrite decide_True by done. reflexivity.
    + rewrite decide_False by tauto. rewrite ret_bind. unfold call.
      destruct (Frontend__send X _ kw w) as [[v|e] w1]; [done|]. simpl.
      destruct (is_BackendFailed e) eqn:He; [|done].
      by destruct e.
  - rewrite decide_False by tauto. rewrite ret_bind. unfold call.
    destruct (Frontend__send X cmd kw w) as [[v|e] w1]; [done|]. simpl.
    destruct (is_BackendFailed e) eqn:He; [|done].
    by destruct e.
Qed.

(** Outside that case [_send] changes nothing of what the base client
    answers: its result is returned as it is, and an exception that is no
    backend failure (an interrupt, an exit) goes through unwrapped. *)
Theorem send_is_transparent (cmd : string) (kw : kwargs) (w : World Ext) :
  ¬ (cmd = "prepare_metadata_for_build_wheel" ∧ "wheel" ∈ builds w) →
  (∀ v w1, Frontend__send X cmd kw w = (Ok v, w1) →
     _send X cmd kw w = (Ok v, w1, [EvSend cmd kw])) ∧
  (∀ e w1, Frontend__send X cmd kw w = (Raise e, w1) →
     is_BackendFailed e = false →
     _send X cmd kw w = (Raise e, w1, [EvSend cmd kw])).
Proof.
  intros Hn.
  assert (∀ r w1, Frontend__send X cmd kw w = (r, w1) →
    (get ≫= λ w0 : World Ext,
       (if decide (cmd = "prepare_metadata_for_build_wheel")
        then if decide ("wheel" ∈ builds w0)
             then raise (BackendFailed (BackendFailed___init__ avoid_redundant "" ""))
             else mret ()
        else mret ()) ≫= λ _, call (EvSend cmd kw) (Frontend__send X cmd kw)) w
    = (r, w1, [EvSend cmd kw])) as Hbody.
  { intros r w1 Hs. rewrite get_bind.
    destruct (decide (cmd = _)) as [->|];
      [destruct (decide ("wheel" ∈ builds w)); [tauto|]|];
      rewrite ret_bind; unfold call; by rewrite Hs. }
  split.
  - intros v w1 Hs. unfold _send, try_except. by rewrite (Hbody _ _ Hs).
  - intros e w1 Hs He. unfold _send, try_except.
    by rewrite (Hbody _ _ Hs), He.
Qed.

(** The frontend is created once: after an access that returned, a further
    access calls nothing and changes nothing.  A frontend that has just been
    created has an empty result cache and no executor. *)
Theorem frontend_is_created_once (w : World Ext) w1 l :
  _frontend cfg X w = (Ok (), w1, l) →
  _frontend cfg X w1 = (Ok (), w1, []) ∧
  (frontend_private w = false → into w1 = ∅ ∧ backend_executor_ w1 = None).
Proof.
  unfold _frontend at 1. rewrite get_bind.
  destruct (frontend_private w) eqn:Hf.
  - intros [= <- <-]. split; [|done].
    unfold _frontend. rewrite get_bind. by rewrite Hf.
  - intros H. apply bind_inv_Ok in H as (args & w2 & l2 & l3 & _ & H & ->).
    injection H as <- <-. split; [|done].
    unfold _frontend. by rewrite get_bind.
Qed.

(** The executor of the backend is created once: after an access that
    returned it, a further access returns the same executor, calls nothing
    and changes nothing. *)
Theorem backend_executor_is_created_once (w : World Ext) executor w1 l :
  backend_executor cfg X w = (Ok executor, w1, l) →
  backend_executor_ w1 = Some executor ∧
  backend_executor cfg X w1 = (Ok executor, w1, []).
Proof.
  unfold backend_executor at 1. rewrite get_bind.
  destruct (backend_executor_ w) as [e|] eqn:He.
  - intros [= <- <- <-]. split; [done|].
    unfold backend_executor. rewrite get_bind. by rewrite He.
  - intros H.
    apply bind_inv_Ok in H as (vars & w2 & l2 & l3 & _ & H & ->).
    rewrite get_bind in H.
    apply bind_inv_Ok in H as ([] & w3 & l4 & l5 & Hm & H & ->).
    injection Hm as <- <-. injection H as <- <- <-.
    split; [done|]. unfold backend_executor. by rewrite get_bind.
Qed.


(** A build that fails is not stored: the failure of the base client goes
    through, the state is the one the base client left, and the next call
    of the same kind calls the base client again. *)
Theorem failed_build_is_not_cached (args : list pyval) (kw : kwargs)
    (w : World Ext) :
  into w !! pkg_cache_key args kw = None →
  (∀ e w1, Frontend_build_wheel X args kw w = (Raise e, w1) →
     build_wheel X args kw w
       = (Raise e, w1, [EvCommand "build_wheel" args kw])) ∧
  (∀ e w1, Frontend_build_sdist X args kw w = (Raise e, w1) →
     build_sdist X args kw w
       = (Raise e, w1, [EvCommand "build_sdist" args kw])).
Proof.
  intros Hn. split; intros e w1 Hf; unfold build_wheel, build_sdist;
    rewrite (pkg_cache_miss _ _ _ _ Hn); unfold call; by rewrite Hf.
Qed.

End ClientMore.

(** ** Traces of the packaging environment *)

Section TraceFacts.
Import Py Pep517.
Context {Ext : Type} (cfg : Config) (X : Collaborators Ext).
Implicit Types wt : event → Z.

Lemma total_app wt l1 l2 : total wt (l1 ++ l2) = (total wt l1 + total wt l2)%Z.
Proof. induction l1 as [|ev l1 IH]; simpl; lia. Qed.

(** Counting the entries that pass a test is a weight. *)
Lemma total_indicator (f : event → bool) l :
  total (λ ev, if f ev then 1 else 0)%Z l
    = Z.of_nat (length (filter (λ ev, f ev = true) l)).
Proof.
  induction l as [|ev l IH]; [done|]. simpl. rewrite filter_cons, IH.
  destruct (f ev); case_decide; try done; simpl; lia.
Qed.

Lemma total_lock_weight l :
  total lock_weight l = (Z.of_nat (acquired l) - Z.of_nat (released l))%Z.
Proof.
  unfold acquired, released. induction l as [|ev l IH]; [done|].
  simpl. rewrite !filter_cons, IH.
  destruct ev; simpl; repeat case_decide; try done; simpl; lia.
Qed.

Lemma neutral_ret {A} wt (a : A) : neutral (Ext := Ext) wt (mret a).
Proof. by intros w r w1 l [= _ _ <-]. Qed.

Lemma neutral_raise {A} wt e : neutral (Ext := Ext) (A := A) wt (raise e).
Proof. by intros w r w1 l [= _ _ <-]. Qed.

Lemma neutral_get wt : neutral (Ext := Ext) wt get.
Proof. by intros w r w1 l [= _ _ <-]. Qed.

Lemma neutral_modify wt f : neutral (Ext := Ext) wt (modify f).
Proof. by intros w r w1 l [= _ _ <-]. Qed.

Lemma neutral_call {A} wt ev (f : extern Ext A) :
  wt ev = 0%Z → neutral wt (call ev f).
Proof.
  intros Hev w r w1 l. unfold call. destruct (f w) as [r0 w0].
  intros [= _ _ <-]. simpl. lia.
Qed.

Lemma neutral_bind {A B} wt (m : M Ext A) (k : A → M Ext B) :
  neutral wt m → (∀ a, neutral wt (k a)) → neutral wt (m ≫= k).
Proof.
  intros Hm Hk w r w1 l. unfold mbind, M_bind, bind.
  destruct (m w) as [[[a|e] w0] l0] eqn:Hmw.
  - destruct (k a w0) as [[r1 w2] l2] eqn:Hkw. intros [= _ _ <-].
    rewrite total_app, (Hm _ _ _ _ Hmw), (Hk _ _ _ _ _ Hkw). done.
  - intros [= _ _ <-]. by apply Hm in Hmw.
Qed.

Lemma neutral_try_except {A} wt (m : M Ext A) caught h :
  neutral wt m → (∀ e, neutral wt (h e)) → neutral wt (try_except m caught h).
Proof.
  intros Hm Hh w r w1 l. unfold try_except.
  destruct (m w) as [[[a|e] w0] l0] eqn:Hmw.
  - intros [= _ _ <-]. by apply Hm in Hmw.
  - destruct (caught e).
    + destruct (h e w0) as [[r1 w2] l2] eqn:Hhw. intros [= _ _ <-].
      rewrite total_app, (Hm _ _ _ _ Hmw), (Hh _ _ _ _ _ Hhw). done.
    + intros [= _ _ <-]. by apply Hm in Hmw.
Qed.

Lemma neutral_try_finally {A} wt (m : M Ext A) fin :
  neutral wt m → neutral wt fin → neutral wt (try_finally m fin).
Proof.
  intros Hm Hf w r w1 l. unfold try_finally.
  destruct (m w) as [[r0 w0] l0] eqn:Hmw.
  destruct (fin w0) as [[[[]|e] w2] l2] eqn:Hfw; intros [= _ _ <-];
    rewrite total_app, (Hm _ _ _ _ Hmw), (Hf _ _ _ _ Hfw); done.
Qed.

Lemma neutral_with_lock {A} wt (m : M Ext A) :
  (wt EvAcquire + wt EvRelease = 0)%Z → neutral wt m →
  neutral wt (with_lock m).
Proof.
  intros Hwt Hm w r w1 l. rewrite with_lock_run.
  destruct (m (set_pkg_lock S w)) as [[r0 w0] l0] eqn:Hmw.
  intros [= _ _ <-]. simpl. rewrite total_app, (Hm _ _ _ _ Hmw). simpl. lia.
Qed.

Lemma neutral_parse_requirements wt l :
  neutral wt (parse_requirements X l).
Proof.
  intros w r w1 tr H. destruct (parse_requirements_pure X l w) as [r' Hr].
  rewrite Hr in H. by injection H as _ _ <-.
Qed.

End TraceFacts.

(** One step of a proof that a computation is neutral: through the
    combinators, into the branches, and into the functions of the file. *)
Ltac neutral_step :=
  first
    [ apply neutral_ret | apply neutral_raise | apply neutral_get
    | apply neutral_modify | apply neutral_parse_requirements
    | apply neutral_call; reflexivity
    | apply neutral_with_lock; [reflexivity|]
    | apply neutral_bind; [|intros ?]
    | apply neutral_try_finally
    | apply neutral_try_except; [|intros ?]
    | match goal with
      | |- Pep517.neutral _ (match ?x with _ => _ end) => destruct x
      end
    | progress unfold Pep517._frontend, Pep517.backend_executor,
        Pep517._send, Pep517._unexpected_response, Pep517.rewrap,
        Pep517.build_wheel, Pep517.build_sdist, Pep517.pkg_cache,
        Pep517.cached, Pep517.wheel_of, Pep517.sdist_of,
        Pep517.register_run_env, Pep517.meta_folder, Pep517.requires_,
        Pep517._ensure_meta_present, Pep517.get_package_dependencies,
        Pep517.perform_packaging, Pep517._teardown ].

(** ** The lock *)

Section LockFacts.
Import Py Pep517.
Context {Ext : Type} (cfg : Config) (X : Collaborators Ext).

Lemma neutral_get_package_dependencies :
  neutral lock_weight (get_package_dependencies cfg X).
Proof. repeat neutral_step. Qed.

Lemma neutral_perform_packaging for_env :
  neutral lock_weight (perform_packaging cfg X for_env).
Proof. repeat neutral_step. Qed.

(** Inside the lock, dependency resolution takes no lock. *)
Lemma resolution_takes_the_lock_once (w : World Ext) r w1 l :
  get_package_dependencies cfg X w = (r, w1, l) →
  total (λ ev, if is_acquire ev then 1 else 0)%Z l = 1%Z.
Proof.
  unfold get_package_dependencies.
  match goal with |- (with_lock ?b ≫= _) _ = _ → _ => set (body := b) end.
  assert (neutral (λ ev, if is_acquire ev then 1 else 0)%Z body) as Hn
    by (subst body; repeat neutral_step).
  unfold mbind at 1, M_bind at 1, bind at 1. rewrite with_lock_run.
  destruct (body (set_pkg_lock S w)) as [[r0 w0] l0] eqn:Hb.
  apply Hn in Hb. destruct r0 as [a|e].
  - rewrite get_bind. intros [= _ _ <-]. simpl. rewrite !total_app, Hb.
    reflexivity.
  - intros [= _ _ <-]. simpl. rewrite !total_app, Hb. reflexivity.
Qed.

(** The lock is released as often as it is taken by every call of
    [get_package_dependencies] and of [perform_packaging], whether the call
    returns or raises; [get_package_dependencies] takes it once. *)
Theorem lock_is_always_released :
  (∀ (w : World Ext) r w1 l,
     get_package_dependencies cfg X w = (r, w1, l) →
     acquired l = 1 ∧ released l = 1) ∧
  (∀ for_env (w : World Ext) r w1 l,
     perform_packaging cfg X for_env w = (r, w1, l) →
     acquired l = released l).
Proof.
  split.
  - intros w r w1 l H.
    pose proof (neutral_get_package_dependencies _ _ _ _ H) as Hbal.
    apply resolution_takes_the_lock_once in H.
    rewrite total_lock_weight in Hbal.
    rewrite total_indicator in H. fold (acquired l) in H. lia.
  - intros for_env w r w1 l H.
    apply neutral_perform_packaging in H.
    rewrite total_lock_weight in H. lia.
Qed.

End LockFacts.

(** ** More on dependency resolution *)

Section ResolutionMore.
Import Py Pep517.
Context {Ext : Type} (cfg : Config) (X : Collaborators Ext).

Lemma total_prepare_weight l :
  total prepare_weight l = Z.of_nat (count_prepare l).
Proof. apply total_indicator. Qed.

Lemma bounded_neutral {A} wt n (m : M Ext A) :
  (0 ≤ n)%Z → neutral wt m → bounded wt n m.
Proof. intros Hn Hm w r w1 l H. apply Hm in H. lia. Qed.

Lemma bounded_call {A} wt n ev (f : extern Ext A) :
  (0 ≤ wt ev ≤ n)%Z → bounded wt n (call ev f).
Proof.
  intros Hev w r w1 l. unfold call. destruct (f w) as [r0 w0].
  intros [= _ _ <-]. simpl. lia.
Qed.

Lemma bounded_bind_l {A B} wt n (m : M Ext A) (k : A → M Ext B) :
  (0 ≤ n)%Z → neutral wt m → (∀ a, bounded wt n (k a)) →
  bounded wt n (m ≫= k).
Proof.
  intros Hn Hm Hk w r w1 l. unfold mbind, M_bind, bind.
  destruct (m w) as [[[a|e] w0] l0] eqn:Hmw; apply Hm in Hmw.
  - destruct (k a w0) as [[r1 w2] l2] eqn:Hkw. intros [= _ _ <-].
    apply Hk in Hkw. rewrite total_app. lia.
  - intros [= _ _ <-]. lia.
Qed.

Lemma bounded_bind_r {A B} wt n (m : M Ext A) (k : A → M Ext B) :
  bounded wt n m → (∀ a, neutral wt (k a)) → bounded wt n (m ≫= k).
Proof.
  intros Hm Hk w r w1 l. unfold mbind, M_bind, bind.
  destruct (m w) as [[[a|e] w0] l0] eqn:Hmw; apply Hm in Hmw.
  - destruct (k a w0) as [[r1 w2] l2] eqn:Hkw. intros [= _ _ <-].
    apply Hk in Hkw. rewrite total_app. lia.
  - by intros [= _ _ <-].
Qed.

Lemma bounded_with_lock {A} wt n (m : M Ext A) :
  wt EvAcquire = 0%Z → wt EvRelease = 0%Z → bounded wt n m →
  bounded wt n (with_lock m).
Proof.
  intros Ha Hr Hm w r w1 l. rewrite with_lock_run.
  destruct (m (set_pkg_lock S w)) as [[r0 w0] l0] eqn:Hmw.
  intros [= _ _ <-]. apply Hm in Hmw. simpl. rewrite total_app. simpl. lia.
Qed.

Lemma bind_Ok_nil {A B} (m : M Ext A) (k : A → M Ext B) w a w1 :
  m w = (Ok a, w1, []) → (m ≫= k) w = k a w1.
Proof.
  intros Hm. rewrite (bind_Ok _ _ _ _ _ _ Hm).
  by destruct (k a w1) as [[r w2] l].
Qed.

(** With the metadata known, [_ensure_meta_present] does nothing. *)
Lemma ensure_meta_present_known (w : World Ext) d :
  distribution_meta w = Some d → _ensure_meta_present cfg X w = (Ok (), w, []).
Proof.
  intros Hd. unfold _ensure_meta_present. rewrite get_bind. by rewrite Hd.
Qed.

Lemma bounded_ensure_meta_present :
  bounded prepare_weight 1 (_ensure_meta_present cfg X).
Proof.
  unfold _ensure_meta_present.
  apply bounded_bind_l; [done|apply neutral_get|]. intros w.
  destruct (distribution_meta w); [by apply bounded_neutral, neutral_ret|].
  apply bounded_bind_l; [done|by apply neutral_call|]. intros _.
  apply bounded_bind_l; [done|repeat neutral_step|]. intros _.
  apply bounded_bind_l; [done|repeat neutral_step|]. intros md.
  apply bounded_bind_r; [by apply bounded_call|]. intros r.
  apply neutral_modify.
Qed.

(** A call of [get_package_dependencies] issues the metadata command at most
    once, whether it returns or raises, and not at all when the metadata or
    the dependencies are known already. *)
Theorem metadata_command_at_most_once (w : World Ext) r w1 l :
  get_package_dependencies cfg X w = (r, w1, l) →
  count_prepare l ≤ 1 ∧
  (is_Some (distribution_meta w) ∨ is_Some (package_dependencies w) →
   count_prepare l = 0).
Proof.
  intros H.
  assert (bounded prepare_weight 1 (get_package_dependencies cfg X)) as Hb.
  { unfold get_package_dependencies.
    apply bounded_bind_r; [|intros _; repeat neutral_step].
    apply bounded_with_lock; [done..|].
    apply bounded_bind_l; [done|apply neutral_get|]. intros w'.
    destruct (package_dependencies w');
      [by apply bounded_neutral, neutral_ret|].
    apply bounded_bind_r; [apply bounded_ensure_meta_present|].
    intros _. repeat neutral_step. }
  split.
  { apply Hb in H. rewrite total_prepare_weight in H. lia. }
  intros Hknown. revert H. unfold get_package_dependencies.
  match goal with |- (with_lock ?b ≫= _) _ = _ → _ => set (body := b) end.
  assert (∀ r0 w0 l0, body (set_pkg_lock S w) = (r0, w0, l0) →
            total prepare_weight l0 = 0%Z) as Hbody.
  { intros r0 w0 l0. subst body. rewrite get_bind.
    cbn [package_dependencies set_pkg_lock].
    destruct (package_dependencies w) as [deps|] eqn:Hp.
    - by intros [= _ _ <-].
    - destruct Hknown as [[d Hd]|[? ?]]; [|done].
      rewrite (bind_Ok_nil _ _ _ () (set_pkg_lock S w))
        by by apply (ensure_meta_present_known _ d).
      match goal with
      | |- ?m ?w' = _ → _ =>
          assert (neutral prepare_weight m) as Hn by repeat neutral_step
      end.
      apply Hn. }
  unfold mbind at 1, M_bind at 1, bind at 1. rewrite with_lock_run.
  destruct (body (set_pkg_lock S w)) as [[r0 w0] l0].
  pose proof (Hbody _ _ _ eq_refl) as Hb0. destruct r0 as [a|e].
  - rewrite get_bind. intros [= _ _ <-].
    apply Nat2Z.inj. rewrite <- total_prepare_weight.
    simpl. rewrite !total_app, Hb0. reflexivity.
  - intros [= _ _ <-].
    apply Nat2Z.inj. rewrite <- total_prepare_weight.
    simpl. rewrite !total_app, Hb0. reflexivity.
Qed.

(** What [get_package_dependencies] returns is a list, and that list is
    stored when the call returns, in whatever state the call was made. *)
Theorem returned_dependencies_are_stored (w : World Ext) r w1 l :
  get_package_dependencies cfg X w = (Ok r, w1, l) →
  ∃ deps, r = Some deps ∧ package_dependencies w1 = Some deps.
Proof.
  intros H. unfold get_package_dependencies in H.
  apply bind_inv_Ok in H as ([] & w2 & l2 & l3 & Hlock & Hget & ->).
  rewrite get_bind in Hget. injection Hget as <- <- <-.
  apply with_lock_inv_Ok in Hlock as (w0 & l0 & Hb & -> & ->).
  rewrite get_bind in Hb. cbn [package_dependencies set_pkg_lock] in Hb.
  destruct (package_dependencies w) as [deps|] eqn:Hp.
  - injection Hb as <- <-. by exists deps.
  - apply bind_inv_Ok in Hb as ([] & w3 & l3 & l4 & _ & Hb & ->).
    rewrite get_bind in Hb.
    apply bind_inv_Ok in Hb as (requires & w4 & l5 & l6 & _ & Hb & ->).
    apply bind_inv_Ok in Hb as (deps & w6 & l9 & l10 & _ & Hset & ->).
    injection Hset as <- <-. by exists deps.
Qed.

(** Parsing the requirement strings is a function of the strings. *)
Lemma parse_requirements_run l (w : World Ext) :
  parse_requirements X l w = (Requirements_of X l, w, []).
Proof.
  induction l as [|i l IH]; [done|]. simpl.
  unfold mbind, M_bind, bind.
  destruct (Requirement___init__ X i) as [q|e]; simpl; [|done].
  rewrite IH. by destruct (Requirements_of X l).
Qed.

(** The strings parse when each of them does; otherwise the error is that
    of the first string that does not parse. *)
Lemma Requirements_of_Ok l :
  Forall (λ i, ∃ q, Requirement___init__ X i = Ok q) l →
  ∃ deps, Requirements_of X l = Ok deps ∧ length deps = length l.
Proof.
  induction 1 as [|i l [q Hq] _ (deps & IH & Hlen)]; simpl.
  - by exists [].
  - rewrite Hq, IH. exists (q :: deps). by rewrite <- Hlen.
Qed.

Lemma Requirements_of_first_error good bad rest e :
  Forall (λ i, ∃ q, Requirement___init__ X i = Ok q) good →
  Requirement___init__ X bad = Raise e →
  Requirements_of X (good ++ bad :: rest) = Raise e.
Proof.
  intros Hgood Hbad.
  induction Hgood as [|i l [q Hq] _ IH]; simpl.
  - by rewrite Hbad.
  - by rewrite Hq, IH.
Qed.

(** Resolution with the dependencies still unknown, once the metadata is
    there: the requirement strings are read and parsed under the lock. *)
Lemma resolve_run (w : World Ext) w3 l3 d :
  package_dependencies w = None →
  _ensure_meta_present cfg X (set_pkg_lock S w) = (Ok (), w3, l3) →
  distribution_meta w3 = Some d →
  get_package_dependencies cfg X w =
    match PathDistribution_requires X d w3 with
    | (Ok rq, w4) =>
        match Requirements_of X (default [] rq) with
        | Ok deps =>
            (Ok (Some deps),
             set_pkg_lock pred (set_package_dependencies (Some deps) w4),
             EvAcquire :: (l3 ++ [EvReadRequires d]) ++ [EvRelease])
        | Raise e =>
            (Raise e, set_pkg_lock pred w4,
             EvAcquire :: (l3 ++ [EvReadRequires d]) ++ [EvRelease])
        end
    | (Raise e, w4) =>
        (Raise e, set_pkg_lock pred w4,
         EvAcquire :: (l3 ++ [EvReadRequires d]) ++ [EvRelease])
    end.
Proof.
  intros Hp Hm Hd. unfold get_package_dependencies.
  unfold mbind at 1, M_bind at 1, bind at 1.
  rewrite with_lock_run, get_bind.
  cbn [package_dependencies set_pkg_lock]. rewrite Hp.
  rewrite (bind_Ok _ _ _ _ _ _ Hm). rewrite get_bind, Hd.
  unfold mbind, M_bind, bind, call, modify, mret, M_ret, ret, get.
  destruct (PathDistribution_requires X d w3) as [[rq|e] w4]; [|done].
  rewrite parse_requirements_run.
  destruct (Requirements_of X (default [] rq)) as [deps|e]; [|done].
  cbn. by rewrite !app_nil_r.
Qed.

(** When the metadata lists no requirements, or an empty list of them, the
    package has no dependencies: the empty list is returned and stored. *)
Theorem project_without_requirements (w : World Ext) w3 l3 d rq w4 :
  package_dependencies w = None →
  _ensure_meta_present cfg X (set_pkg_lock S w) = (Ok (), w3, l3) →
  distribution_meta w3 = Some d →
  PathDistribution_requires X d w3 = (Ok rq, w4) →
  rq = None ∨ rq = Some [] →
  get_package_dependencies cfg X w =
    (Ok (Some []),
     set_pkg_lock pred (set_package_dependencies (Some []) w4),
     EvAcquire :: (l3 ++ [EvReadRequires d]) ++ [EvRelease]).
Proof.
  intros Hp Hm Hd Hr Hrq. rewrite (resolve_run _ _ _ _ Hp Hm Hd), Hr.
  by destruct Hrq as [-> | ->].
Qed.

(** When one of the requirement strings of the metadata does not parse, the
    error of the first such string is raised, the lock is released, and the
    packaging environment stores nothing: the state is the one the metadata
    reader left. *)
Theorem invalid_requirement_is_raised (w : World Ext) w3 l3 d rq w4
    good bad rest e :
  package_dependencies w = None →
  _ensure_meta_present cfg X (set_pkg_lock S w) = (Ok (), w3, l3) →
  distribution_meta w3 = Some d →
  PathDistribution_requires X d w3 = (Ok (Some rq), w4) →
  rq = good ++ bad :: rest →
  Forall (λ i, ∃ q, Requirement___init__ X i = Ok q) good →
  Requirement___init__ X bad = Raise e →
  get_package_dependencies cfg X w =
    (Raise e, set_pkg_lock pred w4,
     EvAcquire :: (l3 ++ [EvReadRequires d]) ++ [EvRelease]).
Proof.
  intros Hp Hm Hd Hr -> Hgood Hbad.
  rewrite (resolve_run _ _ _ _ Hp Hm Hd), Hr. simpl.
  by rewrite (Requirements_of_first_error _ _ _ _ Hgood Hbad).
Qed.

End ResolutionMore.

(** ** More on packaging, teardown and setup *)

Section PackagingMore.
Import Py Pep517.
Context {Ext : Type} (cfg : Config) (X : Collaborators Ext)
  (Y : SetupCollaborators Ext).

(** Once a run environment that wants a wheel has registered, the metadata
    command is answered by the [AvoidRedundant] failure without reaching the
    base client; the kinds recorded before are kept. *)
Theorem registered_wheel_short_circuits (kw : kwargs) (w : World Ext) w0 w1 l :
  PythonPackageToxEnv_register_run_env X "wheel" w = (Ok (), w0) →
  register_run_env X "wheel" w = (Ok (), w1, l) →
  builds w0 ⊆ builds w1 ∧
  _send X "prepare_metadata_for_build_wheel" kw w1 =
    (Raise (ToxBackendFailed
       {| code := VInt 1; exc_type := VStr "AvoidRedundant";
          exc_msg := VStr "will need to build wheel either way, avoid prepare";
          out := ""; err := "" |}), w1, []).
Proof.
  intros Hbase H. unfold register_run_env in H.
  apply bind_inv_Ok in H as ([] & w2 & l2 & l3 & Hcall & Hadd & ->).
  apply call_inv_Ok in Hcall as [Hcall ->].
  rewrite Hbase in Hcall. injection Hcall as <-.
  injection Hadd as <-. split; [cbn; set_solver|].
  unfold _send. apply (try_rewrap_BackendFailed _ _ _ _ []).
  rewrite get_bind. cbn [builds set_builds].
  destruct (decide ("wheel" ∈ builds w0 ∪ {["wheel"]})) as [|Hn]; [done|].
  destruct Hn. set_solver.
Qed.

(** A kind of package other than [wheel], [sdist] and [dev-legacy]
    ([external] among them) is refused with a [TypeError] that names it, but
    only after the package dependencies have been resolved: the state and
    the trace are those of [get_package_dependencies], and nothing is
    built. *)
Theorem unsupported_kind_is_refused (for_env : EnvConfigSet) (w : World Ext)
    reqs w1 l1 :
  package for_env ≠ "wheel" →
  package for_env ≠ "sdist" →
  package for_env ≠ "dev-legacy" →
  get_package_dependencies cfg X w = (Ok (Some reqs), w1, l1) →
  perform_packaging cfg X for_env w =
    (Raise (TypeError ("cannot handle package type " +:+ package for_env)),
     w1, l1).
Proof.
  intros Hw Hs Hd Hdeps. unfold perform_packaging.
  destruct (decide (package for_env = "wheel")); [done|].
  destruct (decide (package for_env = "sdist")); [done|].
  destruct (decide (package for_env = "dev-legacy")); [done|].
  rewrite ret_bind. erewrite bind_Ok by exact Hdeps. cbv beta iota.
  rewrite ret_bind. unfold raise. by rewrite app_nil_r.
Qed.

(** For the kind [sdist] the source distribution is built under the lock
    through the cached [build_sdist], into the package directory, and the
    result is one [SdistPackage] on its path with the package dependencies
    expanded with the extras. *)
Theorem sdist_is_built_under_lock (for_env : EnvConfigSet) (w : World Ext)
    reqs w1 l1 w2 l2 path out err w3 l3 :
  package for_env = "sdist" →
  get_package_dependencies cfg X w = (Ok (Some reqs), w1, l1) →
  _frontend cfg X (set_pkg_lock S w1) = (Ok (), w2, l2) →
  build_sdist X [] {["sdist_directory" := VPath (pkg_dir cfg)]} w2
    = (Ok (SdistResult path out err), w3, l3) →
  perform_packaging cfg X for_env w =
    (Ok [SdistPackage path
           (dependencies_with_extras X reqs (extras for_env))],
     set_pkg_lock pred w3,
     l1 ++ EvAcquire :: (l2 ++ l3) ++ [EvRelease]).
Proof.
  intros Hk Hdeps Hfe Hb. unfold perform_packaging. rewrite Hk.
  destruct (decide ("sdist" = "wheel")); [done|].
  destruct (decide ("sdist" = "dev-legacy")); [done|].
  destruct (decide ("sdist" = "sdist")); [|done].
  rewrite ret_bind. erewrite bind_Ok by exact Hdeps. cbv beta iota.
  rewrite ret_bind.
  erewrite bind_Ok; last first.
  { rewrite with_lock_run. erewrite bind_Ok by exact Hfe.
    erewrite bind_Ok by exact Hb. reflexivity. }
  cbn. by rewrite !app_nil_r.
Qed.

(** At teardown, when the backend process is not alive no [_exit] is sent:
    the executor is closed and the teardown of the base class follows. *)
Theorem teardown_of_dead_backend (w : World Ext) w0 l0 executor w1 l1 :
  _frontend cfg X w = (Ok (), w0, l0) →
  backend_executor cfg X w0 = (Ok executor, w1, l1) →
  Executor_is_alive X executor w1 = false →
  _teardown cfg X w =
    (let '(closed, w3) := Executor_close X executor w1 in
     match closed with
     | Ok _ =>
         let '(r, w4) := ToxEnv__teardown X w3 in
         (r, w4, l0 ++ l1 ++ [EvClose executor; EvTeardown])
     | Raise e => (Raise e, w3, l0 ++ l1 ++ [EvClose executor])
     end).
Proof.
  intros Hfe Hex Hdead. unfold _teardown.
  erewrite bind_Ok by exact Hfe. erewrite bind_Ok by exact Hex.
  unfold mbind at 1, M_bind at 1, bind at 1, try_finally, try_except.
  rewrite get_bind, Hdead.
  unfold mret, M_ret, ret, call.
  destruct (Executor_close X executor w1) as [[[]|e] w3]; cbn; [|done].
  by destruct (ToxEnv__teardown X w3) as [r w4].
Qed.

(** At teardown, when [_exit] raises anything but [SystemExit] (a backend
    failure, an interrupt), the executor is closed and the exception leaves
    [_teardown]: the teardown of the base class is not run. *)
Theorem teardown_propagates_other_failures (w : World Ext) w0 l0 executor
    w1 l1 e w2 l2 w3 :
  _frontend cfg X w = (Ok (), w0, l0) →
  backend_executor cfg X w0 = (Ok executor, w1, l1) →
  Executor_is_alive X executor w1 = true →
  _send X "_exit" ∅ w1 = (Raise e, w2, l2) →
  is_SystemExit e = false →
  Executor_close X executor w2 = (Ok (), w3) →
  _teardown cfg X w = (Raise e, w3, l0 ++ l1 ++ l2 ++ [EvClose executor]).
Proof.
  intros Hfe Hex Halive Hsend He Hclose. unfold _teardown.
  erewrite bind_Ok by exact Hfe. erewrite bind_Ok by exact Hex.
  unfold mbind at 1, M_bind at 1, bind at 1, try_finally, try_except.
  rewrite get_bind, Halive.
  erewrite bind_Raise by exact Hsend. rewrite He.
  unfold call. by rewrite Hclose.
Qed.

(** Setup with no wheel, sdist or external package recorded (legacy
    development mode alone, for one): after the base classes nothing is
    asked from the backend and nothing is installed. *)
Theorem setup_installs_nothing_for_other_kinds (w : World Ext) w1 :
  super__setup_env Y w = (Ok (), w1) →
  "wheel" ∉ builds w1 → "sdist" ∉ builds w1 → "external" ∉ builds w1 →
  _setup_env cfg X Y w = (Ok (), w1, [EvSuperSetupEnv]).
Proof.
  intros Hs Hw Hsd He. unfold _setup_env.
  erewrite bind_Ok; [|unfold call; by rewrite Hs].
  rewrite get_bind. rewrite decide_False by done.
  rewrite ret_bind, get_bind. rewrite decide_False by tauto.
  reflexivity.
Qed.

(** Setup for an external package, or a source distribution, with no wheel
    recorded: the sdist requirements hook of the backend is asked and what
    it returns is installed under [requires_for_build_sdist]; the wheel
    requirements hook is not asked. *)
Theorem setup_installs_sdist_requirements (w : World Ext) w1 w2 l2 r w3 w4 :
  super__setup_env Y w = (Ok (), w1) →
  "wheel" ∉ builds w1 →
  "sdist" ∈ builds w1 ∨ "external" ∈ builds w1 →
  _frontend cfg X w1 = (Ok (), w2, l2) →
  Frontend_get_requires_for_build_sdist X [] ∅ w2 = (Ok r, w3) →
  installer_install Y (requires r) "PythonPackageToxEnv"
    "requires_for_build_sdist" w3 = (Ok (), w4) →
  _setup_env cfg X Y w =
    (Ok (), w4,
     EvSuperSetupEnv
       :: l2 ++ [EvCommand "get_requires_for_build_sdist" [] ∅;
                 EvInstall (requires r) "requires_for_build_sdist"]).
Proof.
  intros Hs Hw Hsd Hfe Hr Hi. unfold _setup_env.
  erewrite bind_Ok; [|unfold call; by rewrite Hs].
  rewrite get_bind. rewrite decide_False by done.
  rewrite ret_bind, get_bind. rewrite decide_True by done.
  erewrite bind_Ok by exact Hfe.
  unfold install, mbind, M_bind, bind, call. by rewrite Hr, Hi.
Qed.

(** Setup with a wheel recorded: the wheel requirements are asked and
    installed first, under [requires_for_build_wheel]; when that
    installation fails the error leaves [_setup_env] and the sdist
    requirements are not looked at. *)
Theorem setup_installs_wheel_requirements_first (w : World Ext) w1 w2 l2 r
    w3 :
  super__setup_env Y w = (Ok (), w1) →
  "wheel" ∈ builds w1 →
  _frontend cfg X w1 = (Ok (), w2, l2) →
  Frontend_get_requires_for_build_wheel Y [] ∅ w2 = (Ok r, w3) →
  (∀ e w4,
     installer_install Y (wheel_requires r) "PythonPackageToxEnv"
       "requires_for_build_wheel" w3 = (Raise e, w4) →
     _setup_env cfg X Y w =
       (Raise e, w4,
        EvSuperSetupEnv
          :: l2 ++ [EvCommand "get_requires_for_build_wheel" [] ∅;
                    EvInstall (wheel_requires r) "requires_for_build_wheel"])) ∧
  (∀ w4,
     installer_install Y (wheel_requires r) "PythonPackageToxEnv"
       "requires_for_build_wheel" w3 = (Ok (), w4) →
     "sdist" ∉ builds w4 → "external" ∉ builds w4 →
     _setup_env cfg X Y w =
       (Ok (), w4,
        EvSuperSetupEnv
          :: l2 ++ [EvCommand "get_requires_for_build_wheel" [] ∅;
                    EvInstall (wheel_requires r) "requires_for_build_wheel"])).
Proof.
  intros Hs Hw Hfe Hr.
  assert (∀ ri w4,
    installer_install Y (wheel_requires r) "PythonPackageToxEnv"
      "requires_for_build_wheel" w3 = (ri, w4) →
    (_frontend cfg X ≫= λ _,
       call (EvCommand "get_requires_for_build_wheel" [] ∅)
         (Frontend_get_requires_for_build_wheel Y [] ∅) ≫= λ r0,
         install Y (wheel_requires r0) "requires_for_build_wheel") w1
    = (ri, w4,
       l2 ++ [EvCommand "get_requires_for_build_wheel" [] ∅;
              EvInstall (wheel_requires r) "requires_for_build_wheel"]))
    as Hwheel.
  { intros ri w4 Hi. erewrite bind_Ok by exact Hfe.
    unfold install, mbind, M_bind, bind, call. rewrite Hr, Hi.
    by destruct ri. }
  split.
  - intros e w4 Hi. unfold _setup_env.
    erewrite bind_Ok; [|unfold call; by rewrite Hs].
    rewrite get_bind. rewrite decide_True by done.
    erewrite bind_Raise by by apply Hwheel. reflexivity.
  - intros w4 Hi Hsd He. unfold _setup_env.
    erewrite bind_Ok; [|unfold call; by rewrite Hs].
    rewrite get_bind. rewrite decide_True by done.
    erewrite bind_Ok by by apply Hwheel.
    rewrite get_bind. rewrite decide_False by tauto.
    cbn. by rewrite app_nil_r.
Qed.

End PackagingMore.

(** ** The scripted project, step by step *)

Section ScriptedProject.
Import Py Pep517.

(** The failure of the backend on a hook it does not have leaves [_send]
    wrapped. *)
Lemma backend_failures_are_rewrapped_witness :
  _send Scripted.X "get_requires_for_build_sdist" ∅ Scripted.start
    = (Raise (ToxBackendFailed Scripted.hook_missing), Scripted.start,
       [EvSend "get_requires_for_build_sdist" ∅]) ∧
  is_ToxBackendFailed (ToxBackendFailed Scripted.hook_missing) = true.
Proof.
  destruct (backend_failures_are_rewrapped Scripted.X)
    as (Hsend & _ & _ & Hwrap & _).
  assert (_send Scripted.X "get_requires_for_build_sdist" ∅ Scripted.start
    = (Raise (ToxBackendFailed Scripted.hook_missing), Scripted.start,
       [EvSend "get_requires_for_build_sdist" ∅])) as Hrun.
  { apply Hwrap; [left; discriminate | vm_compute; reflexivity]. }
  split; [exact Hrun | exact (Hsend _ _ _ _ _ _ Hrun eq_refl)].
Defined.

(** With a wheel wanted, the metadata command is answered on the spot. *)
Lemma prepare_metadata_is_short_circuited_witness :
  "wheel" ∈ builds Scripted.wheel_wanted ∧
  _send Scripted.X "prepare_metadata_for_build_wheel" ∅ Scripted.wheel_wanted
    = (Raise (ToxBackendFailed Scripted.avoid_redundant_failure),
       Scripted.wheel_wanted, []).
Proof.
  assert ("wheel" ∈ builds Scripted.wheel_wanted) as Hw.
  { apply (bool_decide_unpack _). vm_compute. exact I. }
  split; [exact Hw|].
  exact (prepare_metadata_is_short_circuited Scripted.X ∅ _ Hw).
Defined.

(** Three calls in a new session: one metadata command, three times the same
    list. *)
Lemma package_dependencies_are_resolved_once_witness :
  ∃ w1 l,
    repeat_calls (get_package_dependencies Scripted.cfg Scripted.X) 3
      Scripted.start = (Ok (replicate 3 (Some [Scripted.foo])), w1, l) ∧
    count_prepare l = 1.
Proof.
  edestruct (package_dependencies_are_resolved_once Scripted.cfg Scripted.X
               Scripted.start) as (deps & Hr & _ & Hn);
    [reflexivity | reflexivity | vm_compute; reflexivity |].
  injection Hr as <-. destruct (Hn 1) as (l & Hrun & _ & Hc).
  eexists _, _. split; [exact Hrun | exact Hc].
Defined.


(** With a wheel in the cache, [build_sdist] called with a wheel directory
    returns that wheel. *)
Lemma cache_entry_is_chosen_by_keyword_witness :
  build_sdist Scripted.X [] Scripted.plain_build
    (set_into (insert "wheel" Scripted.first_wheel) Scripted.start)
  = (Ok Scripted.first_wheel, set_into (insert "wheel" Scripted.first_wheel) Scripted.start, []).
Proof.
  destruct (cache_entry_is_chosen_by_keyword Scripted.X [] Scripted.plain_build
              (set_into (insert "wheel" Scripted.first_wheel) Scripted.start))
    as (_ & Hhit & _).
  apply (Hhit Scripted.first_wheel). vm_compute. reflexivity.
Defined.

(** The backend dies on [_exit]; teardown returns and the executor is
    closed. *)
Lemma teardown_swallows_system_exit_witness :
  ∃ executor w4,
    _teardown Scripted.cfg Scripted.X Scripted.start
      = (Ok (), w4,
         [EvFrontendInit "/project"; EvEnvironmentVariables;
          EvSend "_exit" ∅; EvClose executor; EvTeardown]).
Proof.
  edestruct (teardown_swallows_system_exit Scripted.cfg Scripted.X
               Scripted.start) as [_ Hreturns];
    [vm_compute; reflexivity | vm_compute; reflexivity | reflexivity
    | vm_compute; reflexivity |].
  eexists _, _. eapply Hreturns; vm_compute; reflexivity.
Defined.

(** A user interrupt while the backend is asked to exit is not caught: the
    executor is closed, but [KeyboardInterrupt] leaves [_teardown] and the
    teardown of the base class is not run. *)
Lemma teardown_keyboard_interrupt_escapes :
  Frontend__send ScriptedSetup.interrupted "_exit" ∅ Scripted.start
    = (Raise KeyboardInterrupt, Scripted.start) ∧
  (_teardown Scripted.cfg ScriptedSetup.interrupted Scripted.start).1.1
    = Raise KeyboardInterrupt ∧
  (_teardown Scripted.cfg ScriptedSetup.interrupted Scripted.start).2
    = [EvFrontendInit "/project"; EvEnvironmentVariables; EvSend "_exit" ∅;
       EvClose ScriptedSetup.executor].
Proof. split_and!; vm_compute; reflexivity. Qed.

(** Legacy development mode: [setuptools], then [wheel], then [foo>=1]. *)
Lemma dev_legacy_package_dependencies_witness :
  ∃ w3 l,
    perform_packaging Scripted.cfg Scripted.X Scripted.dev_legacy_for_py
      Scripted.start
    = (Ok [DevLegacyPackage "/project"
             [{| req := "setuptools" |}; {| req := "wheel" |}; Scripted.foo]], w3, l).
Proof.
  edestruct (dev_legacy_package_dependencies Scripted.cfg Scripted.X
               Scripted.dev_legacy_for_py Scripted.start) as [_ Hrun];
    [reflexivity | vm_compute; reflexivity | vm_compute; reflexivity
    | vm_compute; reflexivity |].
  eexists _, _. exact Hrun.
Defined.


End ScriptedProject.
(** ** More of the scripted project *)

Section ScriptedOutput.
Import Bytes Completion.

Lemma done_running_iff_newline_before_sentinel_witness :
  done Pep517.ScriptedSetup.answered = Some true ∧
  ∃ pre post,
    out Pep517.ScriptedSetup.answered = pre ++ sentinel ++ post ∧ In x0a pre.
Proof.
  assert (done Pep517.ScriptedSetup.answered = Some true) as Hdone
    by (vm_compute; reflexivity).
  split; [exact Hdone|].
  exact (proj1 (done_running_iff_newline_before_sentinel
                  Pep517.ScriptedSetup.answered eq_refl) Hdone).
Defined.

Lemma done_is_stable_witness :
  done {| exit_code := Some 0%Z;
          out := out Pep517.ScriptedSetup.answered ++ b "Backend: bye" |}
  = Some true.
Proof.
  apply (done_is_stable Pep517.ScriptedSetup.answered _ (b "Backend: bye"));
    [reflexivity | vm_compute; reflexivity | reflexivity].
Defined.

Lemma done_needs_newline_and_sentinel_witness :
  done Pep517.ScriptedSetup.running = Some false.
Proof.
  apply done_needs_newline_and_sentinel; [reflexivity|].
  right. vm_compute. reflexivity.
Defined.

End ScriptedOutput.

Section ScriptedMore.
Import Py Pep517.

Lemma send_is_transparent_witness :
  _send Scripted.X "build_wheel" ∅ Scripted.wheel_wanted
    = (Ok (VStr "pkg-1.0-py3-none-any.whl", "", ""), Scripted.wheel_wanted,
       [EvSend "build_wheel" ∅]) ∧
  _send Scripted.X "_exit" ∅ Scripted.wheel_wanted
    = (Raise (SystemExit (VInt 0)), Scripted.wheel_wanted,
       [EvSend "_exit" ∅]).
Proof.
  split.
  - apply send_is_transparent; [intros [Hc _]; discriminate Hc|].
    vm_compute. reflexivity.
  - apply send_is_transparent;
      [intros [Hc _]; discriminate Hc | vm_compute; reflexivity | reflexivity].
Defined.

Lemma frontend_is_created_once_witness :
  ∃ w1,
    _frontend Scripted.cfg Scripted.X Scripted.start
      = (Ok (), w1, [EvFrontendInit "/project"]) ∧
    _frontend Scripted.cfg Scripted.X w1 = (Ok (), w1, []).
Proof.
  edestruct (frontend_is_created_once Scripted.cfg Scripted.X
               Scripted.start) as [Hagain _]; [vm_compute; reflexivity|].
  eexists. split; [vm_compute; reflexivity | exact Hagain].
Defined.

Lemma backend_executor_is_created_once_witness :
  ∃ w1,
    backend_executor Scripted.cfg Scripted.X Scripted.start
      = (Ok {| colored := false; cmd := ["python"]; env := ∅;
               cwd := "/project" |}, w1, [EvEnvironmentVariables]) ∧
    backend_executor Scripted.cfg Scripted.X w1
      = (Ok {| colored := false; cmd := ["python"]; env := ∅;
               cwd := "/project" |}, w1, []).
Proof.
  edestruct (backend_executor_is_created_once Scripted.cfg Scripted.X
               Scripted.start) as [_ Hagain]; [vm_compute; reflexivity|].
  eexists. split; [vm_compute; reflexivity | exact Hagain].
Defined.


Lemma failed_build_is_not_cached_witness :
  build_wheel Scripted.X [] ∅ Scripted.start
    = (Raise (TypeError "wheel_directory"), Scripted.start,
       [EvCommand "build_wheel" [] ∅]).
Proof.
  apply (proj1 (failed_build_is_not_cached Scripted.X [] ∅ Scripted.start
                  eq_refl)).
  vm_compute. reflexivity.
Defined.

Lemma lock_is_always_released_witness :
  ∃ r w1 l,
    perform_packaging Scripted.cfg Scripted.X Scripted.wheel_for_py
      Scripted.wheel_wanted = (r, w1, l) ∧
    acquired l = 2 ∧ released l = 2.
Proof.
  eexists _, _, _. split; [vm_compute; reflexivity|].
  match goal with
  | |- acquired ?l = 2 ∧ _ =>
      assert (acquired l = released l) as Hbal
  end.
  { eapply (proj2 (lock_is_always_released Scripted.cfg Scripted.X)
              Scripted.wheel_for_py Scripted.wheel_wanted).
    vm_compute. reflexivity. }
  rewrite <- Hbal. split; vm_compute; reflexivity.
Defined.

Lemma metadata_command_at_most_once_witness :
  ∃ r w1 l,
    get_package_dependencies Scripted.cfg Scripted.X Scripted.start
      = (r, w1, l) ∧
    count_prepare l ≤ 1.
Proof.
  edestruct (metadata_command_at_most_once Scripted.cfg Scripted.X
               Scripted.start) as [Hle _]; [vm_compute; reflexivity|].
  eexists _, _, _. split; [vm_compute; reflexivity | exact Hle].
Defined.

Lemma returned_dependencies_are_stored_witness :
  ∃ w1 l deps,
    get_package_dependencies Scripted.cfg Scripted.X Scripted.start
      = (Ok (Some [Scripted.foo]), w1, l) ∧
    Some [Scripted.foo] = Some deps ∧ package_dependencies w1 = Some deps.
Proof.
  assert (∃ w1 l,
    get_package_dependencies Scripted.cfg Scripted.X Scripted.start
      = (Ok (Some [Scripted.foo]), w1, l)) as (w1 & l & Hrun)
    by (eexists _, _; vm_compute; reflexivity).
  destruct (returned_dependencies_are_stored _ _ _ _ _ _ Hrun)
    as (deps & Hr & Hp).
  by exists w1, l, deps.
Defined.

Lemma project_without_requirements_witness :
  ∃ w1 l,
    get_package_dependencies Scripted.cfg ScriptedSetup.bare Scripted.start
      = (Ok (Some []), w1, l).
Proof.
  eexists _, _.
  eapply (project_without_requirements Scripted.cfg ScriptedSetup.bare
            Scripted.start);
    [reflexivity | vm_compute; reflexivity | reflexivity
    | vm_compute; reflexivity | by left].
Defined.

Lemma invalid_requirement_is_raised_witness :
  ∃ w1 l,
    get_package_dependencies Scripted.cfg ScriptedSetup.broken Scripted.start
      = (Raise ScriptedSetup.invalid, w1, l).
Proof.
  eexists _, _.
  eapply (invalid_requirement_is_raised Scripted.cfg ScriptedSetup.broken
            Scripted.start _ _ _ _ _ ["bar"] "foo>" ["baz"]);
    [reflexivity | vm_compute; reflexivity | reflexivity
    | vm_compute; reflexivity | reflexivity
    | repeat constructor; by eexists | reflexivity].
Defined.

Lemma registered_wheel_short_circuits_witness :
  ∃ w1,
    register_run_env Scripted.X "wheel" Scripted.start
      = (Ok (), w1, [EvRegisterRunEnv]) ∧
    _send Scripted.X "prepare_metadata_for_build_wheel" ∅ w1
      = (Raise (ToxBackendFailed Scripted.avoid_redundant_failure), w1, []).
Proof.
  edestruct (registered_wheel_short_circuits Scripted.X ∅ Scripted.start)
    as [_ Hsend];
    [vm_compute; reflexivity | vm_compute; reflexivity |].
  eexists. split; [vm_compute; reflexivity | exact Hsend].
Defined.

Lemma unsupported_kind_is_refused_witness :
  ∃ w1 l,
    perform_packaging Scripted.cfg Scripted.X ScriptedSetup.external_for_py
      ScriptedSetup.external_wanted
    = (Raise (TypeError "cannot handle package type external"), w1, l).
Proof.
  eexists _, _.
  eapply (unsupported_kind_is_refused Scripted.cfg Scripted.X
            ScriptedSetup.external_for_py ScriptedSetup.external_wanted);
    [discriminate | discriminate | discriminate | vm_compute; reflexivity].
Defined.

Lemma sdist_is_built_under_lock_witness :
  ∃ w1 l,
    perform_packaging Scripted.cfg Scripted.X ScriptedSetup.sdist_for_py
      Scripted.start
    = (Ok [SdistPackage "/project/.tox/.pkg/dist/pkg-1.0.tar.gz"
             [Scripted.foo]], w1, l).
Proof.
  eexists _, _.
  eapply (sdist_is_built_under_lock Scripted.cfg Scripted.X
            ScriptedSetup.sdist_for_py Scripted.start);
    [reflexivity | vm_compute; reflexivity | vm_compute; reflexivity
    | vm_compute; reflexivity].
Defined.

Lemma teardown_of_dead_backend_witness :
  ∃ w1,
    _teardown Scripted.cfg ScriptedSetup.dead Scripted.start
    = (Ok (), w1,
       [EvFrontendInit "/project"; EvEnvironmentVariables;
        EvClose ScriptedSetup.executor; EvTeardown]).
Proof.
  eexists. etransitivity.
  - eapply (teardown_of_dead_backend Scripted.cfg ScriptedSetup.dead
              Scripted.start);
      [vm_compute; reflexivity | vm_compute; reflexivity | reflexivity].
  - vm_compute. reflexivity.
Defined.

Lemma teardown_propagates_other_failures_witness :
  ∃ w1,
    _teardown Scripted.cfg ScriptedSetup.interrupted Scripted.start
    = (Raise KeyboardInterrupt, w1,
       [EvFrontendInit "/project"; EvEnvironmentVariables;
        EvSend "_exit" ∅; EvClose ScriptedSetup.executor]).
Proof.
  eexists. etransitivity.
  - eapply (teardown_propagates_other_failures Scripted.cfg
              ScriptedSetup.interrupted Scripted.start);
      [vm_compute; reflexivity | vm_compute; reflexivity | reflexivity
      | vm_compute; reflexivity | reflexivity | vm_compute; reflexivity].
  - vm_compute. reflexivity.
Defined.

Lemma teardown_closes_executor_witness :
  ∃ r w1 l,
    _teardown Scripted.cfg ScriptedSetup.interrupted Scripted.start
      = (r, w1, l) ∧
    EvClose ScriptedSetup.executor ∈ l.
Proof.
  eexists _, _, _. split; [vm_compute; reflexivity|].
  eapply (teardown_closes_executor Scripted.cfg ScriptedSetup.interrupted
            Scripted.start);
    [vm_compute; reflexivity | vm_compute; reflexivity
    | vm_compute; reflexivity].
Defined.

Lemma setup_installs_nothing_for_other_kinds_witness :
  _setup_env Scripted.cfg Scripted.X ScriptedSetup.Y
    ScriptedSetup.dev_legacy_wanted
  = (Ok (), ScriptedSetup.dev_legacy_wanted, [EvSuperSetupEnv]).
Proof.
  apply setup_installs_nothing_for_other_kinds; [reflexivity|..];
    intros H; apply (bool_decide_pack _) in H; vm_compute in H; exact H.
Defined.

Lemma setup_installs_sdist_requirements_witness :
  ∃ w1,
    _setup_env Scripted.cfg Scripted.X ScriptedSetup.Y
      ScriptedSetup.external_wanted
    = (Ok (), w1,
       [EvSuperSetupEnv; EvFrontendInit "/project";
        EvCommand "get_requires_for_build_sdist" [] ∅;
        EvInstall [{| req := "wheel" |}] "requires_for_build_sdist"]).
Proof.
  eexists. etransitivity.
  - eapply (setup_installs_sdist_requirements Scripted.cfg Scripted.X
              ScriptedSetup.Y ScriptedSetup.external_wanted);
      [reflexivity
      | intros H; apply (bool_decide_pack _) in H; vm_compute in H; exact H
      | right; apply (bool_decide_unpack _); vm_compute; exact I
      | vm_compute; reflexivity | vm_compute; reflexivity
      | vm_compute; reflexivity].
  - vm_compute. reflexivity.
Defined.

Lemma setup_installs_wheel_requirements_first_witness :
  ∃ w1,
    _setup_env Scripted.cfg Scripted.X ScriptedSetup.Y Scripted.wheel_wanted
    = (Ok (), w1,
       [EvSuperSetupEnv; EvFrontendInit "/project";
        EvCommand "get_requires_for_build_wheel" [] ∅;
        EvInstall [{| req := "wheel" |}] "requires_for_build_wheel"]).
Proof.
  edestruct (setup_installs_wheel_requirements_first Scripted.cfg
               Scripted.X ScriptedSetup.Y Scripted.wheel_wanted)
    as [_ Hinstalled];
    [reflexivity | apply (bool_decide_unpack _); vm_compute; exact I
    | vm_compute; reflexivity | vm_compute; reflexivity |].
  eexists. etransitivity.
  - eapply Hinstalled; [vm_compute; reflexivity|..];
      intros H; apply (bool_decide_pack _) in H; vm_compute in H; exact H.
  - vm_compute. reflexivity.
Defined.

End ScriptedMore.
